(** * blocks.extensions.saveload: checkpoint, dump and load extensions

    A shallow embedding of [blocks/extensions/saveload.py] and the
    properties of its three training-loop extensions, [Checkpoint],
    [LoadFromDump] and [Dump].

    Python objects are first-order values, the main loop is a record that
    is threaded through a state-and-exception monad, and the collaborators
    that live in other modules ([secure_pickle_dump], [MainLoopDumpManager],
    [reraise_as], [SimpleExtension.parse_args], [os.path.exists]) are the
    fields of an interface, [Platform]. *)

From Stdlib Require Import ZArith Ascii String List Lia.
From stdpp Require Import base option list strings gmap fin_maps.

Set Warnings "-register-all".
Local Open Scope string_scope.

(** ** Python values *)

(** The values that reach the log and the argument tuples of [do]. *)
Inductive value : Type :=
| VNone
| VInt (z : Z)
| VStr (s : string)
| VTuple (items : list value)
| VOpaque (id : nat).

(** The classes of the exceptions that occur, with [Exception] itself,
    and the two that derive from [BaseException] only. *)
Inductive exc_class : Type :=
| TypeError
| ValueError
| AttributeError
| KeyError
| IOError
| PicklingError
| RuntimeError
| KeyboardInterrupt
| SystemExit.

Record PyException : Type := mkExc {
  exc_type : exc_class;
  exc_args : string
}.

(** [isinstance(e, Exception)]: what an [except Exception] clause
    catches. *)
Definition is_Exception (e : PyException) : bool :=
  match exc_type e with
  | KeyboardInterrupt | SystemExit => false
  | _ => true
  end.

(** ** The main loop *)

Definition LOADED_FROM : string := "loaded_from".
Definition SAVED_TO : string := "saved_to".

(** Modelled from the spec: the log is an ordered sequence of dict-like
    rows, the last of which is the current row; [blocks.log] is not part
    of the sources. *)
Record TrainingLog : Type := mkLog {
  previous_rows : list (gmap string value);
  current_row : gmap string value
}.

(** Modelled from the spec: the main loop is an externally owned object
    carrying a log, a model and the training state; [blocks.main_loop]
    is not part of the sources.  Every attribute other than the log is an
    entry of [attributes]. *)
Record MainLoop : Type := mkMainLoop {
  log : TrainingLog;
  attributes : gmap string value
}.

(** What can be handed to the pickler. *)
Inductive pyobject : Type :=
| ObjMainLoop (m : MainLoop)
| ObjLog (l : TrainingLog)
| ObjValue (v : value).

(** [main_loop.log.current_row[key] = v] *)
Definition set_record (key : string) (v : value) (m : MainLoop) : MainLoop :=
  {| log := {| previous_rows := previous_rows (log m);
               current_row := <[key := v]> (current_row (log m)) |};
     attributes := attributes m |}.

(** [getattr(main_loop, name)], [None] standing for [AttributeError]. *)
Definition lookup_attribute (m : MainLoop) (name : string) : option pyobject :=
  if decide (name = "log") then Some (ObjLog (log m))
  else ObjValue <$> attributes m !! name.

(** ** [os.path.splitext] (posixpath) *)

Module PosixPath.

Definition sep : ascii := "/"%char.
Definition extsep : ascii := "."%char.

(** [p.rfind(c)], counting from [i]; [acc] is the answer so far and
    [-1] means that [c] does not occur. *)
Fixpoint rfind_from (c : ascii) (p : string) (i acc : Z) : Z :=
  match p with
  | EmptyString => acc
  | String a p' =>
      rfind_from c p' (i + 1) (if Ascii.eqb a c then i else acc)
  end.

Definition rfind (c : ascii) (p : string) : Z := rfind_from c p 0 (-1).

(** [p[:n]] and [p[n:]] for [0 <= n]. *)
Fixpoint take (n : nat) (p : string) : string :=
  match n, p with
  | S n', String a p' => String a (take n' p')
  | _, _ => EmptyString
  end.

Fixpoint drop (n : nat) (p : string) : string :=
  match n, p with
  | S n', String _ p' => drop n' p'
  | _, _ => p
  end.

(** [p[i:i+1] != extsep]; out of range the slice is empty, hence
    different from the separator. *)
Definition not_extsep_at (p : string) (i : nat) : bool :=
  match String.get i p with
  | Some a => negb (Ascii.eqb a extsep)
  | None => true
  end.

(** The [while filenameIndex < dotIndex] loop of [genericpath._splitext];
    [steps] is [dotIndex - filenameIndex].  It answers whether the loop
    returns the split. *)
Fixpoint skip_leading_dots (p : string) (filenameIndex steps : nat) : bool :=
  match steps with
  | O => false
  | S steps' =>
      if not_extsep_at p filenameIndex then true
      else skip_leading_dots p (S filenameIndex) steps'
  end.

Definition splitext (p : string) : string * string :=
  let sepIndex := rfind sep p in
  let dotIndex := rfind extsep p in
  if (sepIndex <? dotIndex)%Z then
    let filenameIndex := Z.to_nat (sepIndex + 1) in
    if skip_leading_dots p filenameIndex (Z.to_nat dotIndex - filenameIndex)
    then (take (Z.to_nat dotIndex) p, drop (Z.to_nat dotIndex) p)
    else (p, EmptyString)
  else (p, EmptyString).

End PosixPath.

(** ** Collaborators from other modules *)

(** What the extensions call and this file does not define.  [World] is
    everything outside the main loop (the file system); a call that raises
    answers [Some e]. *)
Class Platform : Type := {
  World : Type;
  (** [SimpleExtension.parse_args]: [(from_main_loop, from_user)] *)
  parse_args : string -> list value -> list value * list value;
  (** [blocks.serialization.secure_pickle_dump(object_, path)] *)
  secure_pickle_dump : pyobject -> value -> World -> option PyException * World;
  (** [MainLoopDumpManager(state_path).folder] *)
  manager_folder : string -> string;
  (** [MainLoopDumpManager.dump(main_loop)] *)
  manager_dump : string -> MainLoop -> World -> option PyException * World;
  (** [MainLoopDumpManager.load_to(main_loop)], which updates the main
      loop in place *)
  manager_load_to :
    string -> MainLoop -> World -> option PyException * MainLoop * World;
  (** [os.path.exists] *)
  path_exists : string -> World -> bool;
  (** [blocks.utils.reraise_as(message)]: the exception it raises while
      the given one is being handled *)
  reraise_as : string -> PyException -> PyException
}.

Record MainLoopDumpManager : Type := mkManager { folder : string }.

(** Calls that leave the process, in the order they are made. *)
Inductive event : Type :=
| PickleCall (obj : pyobject) (path : value)
| DumpCall (dump_folder : string) (m : MainLoop)
| LoadCall (dump_folder : string)
| LogInfo (message : string).

(** ** State and exceptions *)

Inductive outcome (A : Type) : Type :=
| Returned (a : A)
| Raised (e : PyException).
Arguments Returned {A} a.
Arguments Raised {A} e.

Section Extensions.

Context {P : Platform}.

(** [main_loop] is the extension's [self.main_loop]. *)
Record State : Type := mkState {
  main_loop : MainLoop;
  world : World;
  trace : list event
}.

Definition M (A : Type) : Type := State -> outcome A * State.

#[export] Instance M_ret : MRet M := fun A a s => (Returned a, s).

#[export] Instance M_bind : MBind M := fun A B f m s =>
  match m s with
  | (Returned a, s') => f a s'
  | (Raised e, s') => (Raised e, s')
  end.

Definition raise {A : Type} (e : PyException) : M A :=
  fun s => (Raised e, s).

(** [try: body / except Exception: handler]; inside the handler the
    caught exception is the one a bare [raise] re-raises. *)
Definition try_except_Exception {A : Type}
    (body : M A) (handler : PyException -> M A) : M A :=
  fun s =>
    match body s with
    | (Returned a, s') => (Returned a, s')
    | (Raised e, s') =>
        if is_Exception e then handler e s' else (Raised e, s')
    end.

Definition get_main_loop : M MainLoop := fun s => (Returned (main_loop s), s).

Definition emit (ev : event) : M unit := fun s =>
  (Returned tt,
   {| main_loop := main_loop s; world := world s;
      trace := trace s ++ [ev] |}).

(** [self.main_loop.log.current_row[key] = v] *)
Definition set_current_row (key : string) (v : value) : M unit := fun s =>
  (Returned tt,
   {| main_loop := set_record key v (main_loop s); world := world s;
      trace := trace s |}).

Definition logger_info (message : string) : M unit := emit (LogInfo message).

Definition call_secure_pickle_dump (obj : pyobject) (path : value) : M unit :=
  fun s =>
    let '(r, w) := secure_pickle_dump obj path (world s) in
    let s' := {| main_loop := main_loop s; world := w;
                 trace := trace s ++ [PickleCall obj path] |} in
    match r with
    | None => (Returned tt, s')
    | Some e => (Raised e, s')
    end.

Definition call_dump (mgr : MainLoopDumpManager) : M unit := fun s =>
  let '(r, w) := manager_dump (folder mgr) (main_loop s) (world s) in
  let s' := {| main_loop := main_loop s; world := w;
               trace := trace s ++ [DumpCall (folder mgr) (main_loop s)] |} in
  match r with
  | None => (Returned tt, s')
  | Some e => (Raised e, s')
  end.

Definition call_load_to (mgr : MainLoopDumpManager) : M unit := fun s =>
  let '(r, m, w) := manager_load_to (folder mgr) (main_loop s) (world s) in
  let s' := {| main_loop := m; world := w;
               trace := trace s ++ [LoadCall (folder mgr)] |} in
  match r with
  | None => (Returned tt, s')
  | Some e => (Raised e, s')
  end.

Definition os_path_exists (p : string) : M bool := fun s =>
  (Returned (path_exists p (world s)), s).

(** [getattr(self.main_loop, name)] *)
Definition getattr_main_loop (name : string) : M pyobject := fun s =>
  match lookup_attribute (main_loop s) name with
  | Some obj => (Returned obj, s)
  | None => (Raised (mkExc AttributeError name), s)
  end.

(** [a + (items,)]: concatenation when [a] is a tuple, [TypeError]
    otherwise. *)
Definition tuple_concat (a : value) (items : list value) : M value :=
  match a with
  | VTuple xs => mret (VTuple (xs ++ items))
  | _ => raise (mkExc TypeError "can only concatenate tuple to tuple")
  end.

(** [x, = t] *)
Definition unpack_single (t : list value) : M value :=
  match t with
  | [x] => mret x
  | [] => raise (mkExc ValueError "need more than 0 values to unpack")
  | _ => raise (mkExc ValueError "too many values to unpack")
  end.

(** [d[key]] *)
Definition dict_getitem (d : gmap string string) (key : string) : M string :=
  match d !! key with
  | Some v => mret v
  | None => raise (mkExc KeyError key)
  end.

(** [for x in xs: body(x)] *)
Fixpoint for_each {A : Type} (xs : list A) (body : A -> M unit) : M unit :=
  match xs with
  | [] => mret tt
  | x :: xs' => body x;; for_each xs' body
  end.

End Extensions.

(** ** [class Checkpoint(SimpleExtension)] *)

Module Checkpoint.

Record t : Type := mk {
  path : value;
  save_separately : list string
}.

(** [__init__(self, path, save_separately=None, **kwargs)]; a missing or
    empty [save_separately] becomes the empty list. *)
Definition init (path : value) (save_separately : option (list string)) : t :=
  {| path := path;
     save_separately :=
       match save_separately with
       | Some (a :: l) => a :: l
       | _ => []
       end |}.

(** The dict comprehension
    [{attribute: root + "_" + attribute + ext for attribute in ...}]:
    keys are inserted in order, a later one replacing an earlier one. *)
Definition filenames_dict (root ext : string) (attrs : list string)
    : gmap string string :=
  fold_left
    (fun d attribute => <[attribute := root ++ "_" ++ attribute ++ ext]> d)
    attrs ∅.

Section WithPlatform.

Context {P : Platform}.

(** [save_separately_filenames(self, path)]; [os.path.splitext] rejects a
    path that is not a string. *)
Definition save_separately_filenames (self : t) (path : value)
    : M (gmap string string) :=
  match path with
  | VStr p =>
      let '(root, ext) := PosixPath.splitext p in
      mret (filenames_dict root ext (save_separately self))
  | _ => raise (mkExc TypeError "expected str")
  end.

(** The [try] block of [do]. *)
Definition do_try (self : t) (from_user : list value) : M unit :=
  path ← (match from_user with
          | [] => mret (path self)
          | _ => unpack_single from_user
          end);
  m ← get_main_loop;
  let already_saved_to :=
    default (VTuple []) (current_row (log m) !! SAVED_TO) in
  record ← tuple_concat already_saved_to [path];
  set_current_row SAVED_TO record;;
  m ← get_main_loop;
  call_secure_pickle_dump (ObjMainLoop m) path;;
  filenames ← save_separately_filenames self path;
  for_each (save_separately self) (fun attribute =>
    obj ← getattr_main_loop attribute;
    filename ← dict_getitem filenames attribute;
    call_secure_pickle_dump obj (VStr filename)).

(** The [except Exception] block of [do]. *)
Definition do_except (e : PyException) : M unit :=
  set_current_row SAVED_TO VNone;;
  raise e.

(** [do(self, callback_name, *args)] *)
Definition do (self : t) (callback_name : string) (args : list value) : M unit :=
  let '(from_main_loop, from_user) := parse_args callback_name args in
  try_except_Exception (do_try self from_user) do_except.

End WithPlatform.

End Checkpoint.

(** ** [class LoadFromDump(TrainingExtension)] *)

Module LoadFromDump.

Record t : Type := mk { manager : MainLoopDumpManager }.

Section WithPlatform.

Context {P : Platform}.

(** [__init__(self, state_path, **kwargs)] *)
Definition init (state_path : string) : t :=
  {| manager := mkManager (manager_folder state_path) |}.

(** [before_training(self)] *)
Definition before_training (self : t) : M unit :=
  found ← os_path_exists (folder (manager self));
  if negb found then
    logger_info "No dump found"
  else
    logger_info ("Loading the state from " ++ folder (manager self)
                 ++ " into the main loop");;
    try_except_Exception
      (call_load_to (manager self);;
       set_current_row LOADED_FROM (VStr (folder (manager self))))
      (fun e => raise (reraise_as "Failed to load the state" e)).

End WithPlatform.

End LoadFromDump.

(** ** [class Dump(SimpleExtension)] *)

Module Dump.

Record t : Type := mk { manager : MainLoopDumpManager }.

Section WithPlatform.

Context {P : Platform}.

(** [__init__(self, state_path, **kwargs)] *)
Definition init (state_path : string) : t :=
  {| manager := mkManager (manager_folder state_path) |}.

(** The [try] block of [do]. *)
Definition do_try (self : t) : M unit :=
  set_current_row SAVED_TO (VStr (folder (manager self)));;
  call_dump (manager self).

(** The [except Exception] block of [do]. *)
Definition do_except (e : PyException) : M unit :=
  set_current_row SAVED_TO VNone;;
  raise e.

(** [do(self, callback_name, *args, **kwargs)] *)
Definition do (self : t) (callback_name : string) (args : list value) : M unit :=
  try_except_Exception (do_try self) do_except.

End WithPlatform.

End Dump.

(** ** Vocabulary of the specification *)

Section Vocabulary.

Context {P : Platform}.

(** The records of the current row. *)
Definition saved_to (s : State) : option value :=
  current_row (log (main_loop s)) !! SAVED_TO.

Definition loaded_from (s : State) : option value :=
  current_row (log (main_loop s)) !! LOADED_FROM.

(** [current_row.get(SAVED_TO, ())] *)
Definition already_saved_to (s : State) : value :=
  default (VTuple []) (saved_to s).

(** The path a run of [Checkpoint.do] saves to, given the user's
    arguments. *)
Definition used_path (self : Checkpoint.t) (from_user : list value) : value :=
  match from_user with
  | [] => Checkpoint.path self
  | p :: _ => p
  end.

(** The path derived for a separately saved attribute. *)
Definition derived_path (p attribute : string) : string :=
  fst (PosixPath.splitext p) ++ "_" ++ attribute ++ snd (PosixPath.splitext p).

(** Two main loops that differ at most in the [SAVED_TO] record of the
    current row. *)
Definition same_except_saved_to (m m' : MainLoop) : Prop :=
  attributes m' = attributes m
  /\ previous_rows (log m') = previous_rows (log m)
  /\ delete SAVED_TO (current_row (log m')) =
     delete SAVED_TO (current_row (log m)).

(** The state after [main_loop.log.current_row[SAVED_TO] = v]. *)
Definition record_saved_to (v : value) (s : State) : State :=
  {| main_loop := set_record SAVED_TO v (main_loop s);
     world := world s; trace := trace s |}.

(** The pickler calls for the separately saved attributes of [m], up to
    the first attribute that [m] does not have. *)
Fixpoint separate_calls (m : MainLoop) (p : string) (attrs : list string)
    : list event :=
  match attrs with
  | [] => []
  | a :: attrs' =>
      match lookup_attribute m a with
      | Some obj =>
          PickleCall obj (VStr (derived_path p a)) :: separate_calls m p attrs'
      | None => []
      end
  end.

Definition separate_calls_to (m : MainLoop) (path : value)
    (attrs : list string) : list event :=
  match path with
  | VStr p => separate_calls m p attrs
  | _ => []
  end.

(** Several runs of [Checkpoint.do], one after the other. *)
Definition run_all (self : Checkpoint.t) (calls : list (string * list value))
    : M unit :=
  for_each calls (fun c => Checkpoint.do self (fst c) (snd c)).

(** The paths those runs save to. *)
Definition used_paths (self : Checkpoint.t) (calls : list (string * list value))
    : list value :=
  map (fun c => used_path self (snd (parse_args (fst c) (snd c)))) calls.

(** The records the specification allows. *)
Definition path_or_None (v : value) : bool :=
  match v with
  | VNone | VStr _ => true
  | _ => false
  end.

(** A record that mentions the path [p], alone or as the last element of
    a tuple. *)
Definition records_path (v : value) (p : value) : Prop :=
  v = p \/ exists xs, v = VTuple (xs ++ [p]).

End Vocabulary.

(** ** A reference platform

    An in-memory file system with injectable faults, against which the
    extensions can be run. *)

Module Sim.

Record disk : Type := mkDisk {
  files : gmap string pyobject;
  dumps : gmap string MainLoop;
  (** destinations at which the next write or read fails, and how *)
  faults : gmap string PyException
}.

(** Modelled from the spec: [SimpleExtension.parse_args] is not part of
    the sources.  Here the batch callbacks receive the batch from the main
    loop first, and every other argument comes from the user. *)
Definition sim_parse_args (callback_name : string) (args : list value)
    : list value * list value :=
  if bool_decide (callback_name = "after_batch")
     || bool_decide (callback_name = "before_batch")
  then match args with
       | batch :: rest => ([batch], rest)
       | [] => ([], [])
       end
  else ([], args).

(** Writing [obj] to [path], unless a fault is pending there. *)
Definition sim_secure_pickle_dump (obj : pyobject) (path : value) (w : disk)
    : option PyException * disk :=
  match path with
  | VStr p =>
      match faults w !! p with
      | Some e => (Some e, w)
      | None =>
          (None, {| files := <[p := obj]> (files w); dumps := dumps w;
                    faults := faults w |})
      end
  | _ => (Some (mkExc TypeError "expected str"), w)
  end.

(** Writing the main loop to the dump folder, unless a fault is pending
    there. *)
Definition sim_manager_dump (dump_folder : string) (m : MainLoop) (w : disk)
    : option PyException * disk :=
  match faults w !! dump_folder with
  | Some e => (Some e, w)
  | None =>
      (None, {| files := files w; dumps := <[dump_folder := m]> (dumps w);
                faults := faults w |})
  end.

(** Reading the main loop back from the dump folder. *)
Definition sim_manager_load_to (dump_folder : string) (m : MainLoop) (w : disk)
    : option PyException * MainLoop * disk :=
  match faults w !! dump_folder with
  | Some e => (Some e, m, w)
  | None =>
      match dumps w !! dump_folder with
      | Some saved => (None, saved, w)
      | None => (Some (mkExc IOError dump_folder), m, w)
      end
  end.

(** A path exists when something was written there or a fault is pending
    on it. *)
Definition sim_path_exists (p : string) (w : disk) : bool :=
  bool_decide (is_Some (files w !! p)) || bool_decide (is_Some (dumps w !! p))
  || bool_decide (is_Some (faults w !! p)).

(** Modelled from the spec: [blocks.utils.reraise_as] is not part of the
    sources; the specification says that the exception is re-raised, so
    here the exception being handled is raised again as it is. *)
Definition sim_reraise_as (message : string) (e : PyException) : PyException := e.

Definition platform : Platform := {|
  World := disk;
  parse_args := sim_parse_args;
  secure_pickle_dump := sim_secure_pickle_dump;
  manager_folder := fun state_path => state_path;
  manager_dump := sim_manager_dump;
  manager_load_to := sim_manager_load_to;
  path_exists := sim_path_exists;
  reraise_as := sim_reraise_as
|}.

(** A main loop with a model, an algorithm and one finished log row. *)
Definition fresh_main_loop (row : gmap string value) : MainLoop :=
  {| log := {| previous_rows := [{["epochs_done" := VInt 0]}];
               current_row := row |};
     attributes := {["model" := VOpaque 1; "algorithm" := VOpaque 2]} |}.

Definition empty_world : disk :=
  {| files := ∅; dumps := ∅; faults := ∅ |}.

Definition faulty_world (p : string) (e : PyException) : disk :=
  {| files := ∅; dumps := ∅; faults := {[p := e]} |}.

Definition start (row : gmap string value) (w : disk) : @State platform :=
  @mkState platform (fresh_main_loop row) w [].

Definition checkpoint : Checkpoint.t :=
  Checkpoint.init (VStr "run/model.pkl") (Some ["log"; "model"]).

Definition interrupt : PyException := mkExc KeyboardInterrupt "".

Definition disk_full : PyException := mkExc IOError "No space left on device".

Definition read_error : PyException := mkExc IOError "Input/output error".

(** Nothing on this disk makes a write fail. *)
Definition healthy (w : disk) : Prop := faults w = ∅.

(** A disk that holds a dump of a main loop in ["run/dump"]. *)
Definition dumped_world : disk :=
  {| files := ∅; dumps := {["run/dump" := fresh_main_loop ∅]}; faults := ∅ |}.

(** A checkpoint at the end of an epoch, then one requested by the user
    with a path of its own. *)
Definition two_calls : list (string * list value) :=
  [("after_epoch", []); ("after_epoch", [VStr "run/best.pkl"])].

End Sim.

(** ** Further vocabulary *)

(** The events that are calls to [secure_pickle_dump]. *)
Definition is_pickle_call (ev : event) : bool :=
  match ev with
  | PickleCall _ _ => true
  | _ => false
  end.

(** [c in p] for a character and a string. *)
Fixpoint occurs (c : ascii) (p : string) : bool :=
  match p with
  | EmptyString => false
  | String a p' => Ascii.eqb a c || occurs c p'
  end.

(** Replaying calls to the pickler on a world. *)
Section Replay.

Context {P : Platform}.

(** Every call to the pickler among [evs], made in order from the world
    [w], returns normally. *)
Fixpoint pickles_succeed (w : World) (evs : list event) : Prop :=
  match evs with
  | [] => True
  | PickleCall obj path :: evs' =>
      fst (secure_pickle_dump obj path w) = None
      /\ pickles_succeed (snd (secure_pickle_dump obj path w)) evs'
  | _ :: evs' => pickles_succeed w evs'
  end.

(** The world after the calls to the pickler among [evs]. *)
Fixpoint after_pickles (w : World) (evs : list event) : World :=
  match evs with
  | [] => w
  | PickleCall obj path :: evs' =>
      after_pickles (snd (secure_pickle_dump obj path w)) evs'
  | _ :: evs' => after_pickles w evs'
  end.

(** The calls that are made when [evs] are attempted in order from the
    world [w] and the first call that raises ends the attempt. *)
Fixpoint made_calls (w : World) (evs : list event) : list event :=
  match evs with
  | [] => []
  | PickleCall obj path :: evs' =>
      PickleCall obj path ::
        match fst (secure_pickle_dump obj path w) with
        | None => made_calls (snd (secure_pickle_dump obj path w)) evs'
        | Some _ => []
        end
  | ev :: evs' => ev :: made_calls w evs'
  end.

End Replay.

(** * Properties *)

Local Open Scope list_scope.

(** ** Paths *)

Lemma append_empty_r (p : string) : p +:+ "" = p.
Proof.
  induction p as [|a p IH]; [reflexivity|].
  change (String a (p +:+ "") = String a p). now rewrite IH.
Qed.

Lemma take_drop (n : nat) (p : string) :
  PosixPath.take n p +:+ PosixPath.drop n p = p.
Proof.
  revert p; induction n as [|n IH]; intros [|a p]; try reflexivity.
  change (String a (PosixPath.take n p +:+ PosixPath.drop n p) = String a p).
  now rewrite IH.
Qed.

Lemma splitext_concat (p : string) :
  fst (PosixPath.splitext p) +:+ snd (PosixPath.splitext p) = p.
Proof.
  unfold PosixPath.splitext.
  destruct (_ <? _)%Z; [|apply append_empty_r].
  destruct (PosixPath.skip_leading_dots _ _ _); cbn [fst snd].
  - apply take_drop.
  - apply append_empty_r.
Qed.

Example splitext_plain :
  PosixPath.splitext "run/model.pkl" = ("run/model", ".pkl").
Proof. reflexivity. Qed.

Example splitext_hidden : PosixPath.splitext "run/.hidden" = ("run/.hidden", "").
Proof. reflexivity. Qed.

Example splitext_dotted_folder :
  PosixPath.splitext "run.d/model" = ("run.d/model", "").
Proof. reflexivity. Qed.

Example splitext_two_dots :
  PosixPath.splitext "a/..x.tar.gz" = ("a/..x.tar", ".gz").
Proof. reflexivity. Qed.

(** ** The dictionary of derived paths *)

Lemma filenames_fold_lookup (root ext : string) (attrs : list string)
    (d : gmap string string) (a : string) :
  a ∈ attrs \/ d !! a = Some (root +:+ "_" +:+ a +:+ ext) ->
  fold_left
    (fun d attribute => <[attribute := root +:+ "_" +:+ attribute +:+ ext]> d)
    attrs d !! a = Some (root +:+ "_" +:+ a +:+ ext).
Proof.
  revert d; induction attrs as [|b attrs IH]; intros d H; simpl.
  - destruct H as [H|H]; [inversion H | exact H].
  - apply IH. destruct H as [H|H].
    + apply elem_of_cons in H as [->|H]; [right | now left].
      apply lookup_insert_eq.
    + right. destruct (decide (b = a)) as [->|Hne].
      * apply lookup_insert_eq.
      * now rewrite lookup_insert_ne.
Qed.

Lemma filenames_dict_lookup (root ext : string) (attrs : list string) (a : string) :
  a ∈ attrs ->
  Checkpoint.filenames_dict root ext attrs !! a = Some (root +:+ "_" +:+ a +:+ ext).
Proof. intros H. apply filenames_fold_lookup. now left. Qed.

Lemma filenames_fold_dom (root ext : string) (attrs : list string)
    (d : gmap string string) (a : string) :
  is_Some (fold_left
    (fun d attribute => <[attribute := root +:+ "_" +:+ attribute +:+ ext]> d)
    attrs d !! a) -> a ∈ attrs \/ is_Some (d !! a).
Proof.
  revert d; induction attrs as [|b attrs IH]; intros d H; simpl in *.
  - now right.
  - apply IH in H as [H|H]; [left; now right|].
    destruct (decide (b = a)) as [->|Hne]; [left; now left|].
    rewrite lookup_insert_ne in H by assumption. now right.
Qed.

(** ** Running the monad *)

Section Properties.

Context {P : Platform}.

Implicit Types (s : State) (m : MainLoop) (e : PyException).

Lemma bind_run {A B : Type} (f : A -> M B) (c : M A) s :
  (c ≫= f) s =
  match c s with
  | (Returned a, s') => f a s'
  | (Raised e, s') => (Raised e, s')
  end.
Proof. reflexivity. Qed.

Lemma for_each_cons {A : Type} (x : A) (xs : list A) (body : A -> M unit) s :
  for_each (x :: xs) body s =
  match body x s with
  | (Returned _, s') => for_each xs body s'
  | (Raised e, s') => (Raised e, s')
  end.
Proof. reflexivity. Qed.

Lemma call_secure_pickle_dump_run (obj : pyobject) (path : value) s :
  call_secure_pickle_dump obj path s =
  (match fst (secure_pickle_dump obj path (world s)) with
   | None => Returned tt
   | Some e => Raised e
   end,
   {| main_loop := main_loop s;
      world := snd (secure_pickle_dump obj path (world s));
      trace := trace s ++ [PickleCall obj path] |}).
Proof.
  unfold call_secure_pickle_dump.
  destruct (secure_pickle_dump obj path (world s)) as [[e|] w]; reflexivity.
Qed.

(** One turn of the loop over [save_separately]. *)
Lemma save_attribute_run (d : gmap string string) (p a : string) s :
  d !! a = Some (derived_path p a) ->
  (obj ← getattr_main_loop a;
   filename ← dict_getitem d a;
   call_secure_pickle_dump obj (VStr filename)) s =
  match lookup_attribute (main_loop s) a with
  | Some obj => call_secure_pickle_dump obj (VStr (derived_path p a)) s
  | None => (Raised (mkExc AttributeError a), s)
  end.
Proof.
  intros Hd. rewrite bind_run. unfold getattr_main_loop.
  destruct (lookup_attribute (main_loop s) a) as [obj|]; [|reflexivity].
  rewrite bind_run. unfold dict_getitem. rewrite Hd. reflexivity.
Qed.

(** The loop leaves the main loop alone and calls the pickler once per
    attribute, in order, until a call or a [getattr] raises. *)
Lemma save_loop_run (d : gmap string string) (p : string) (attrs : list string) :
  (forall a, a ∈ attrs -> d !! a = Some (derived_path p a)) ->
  forall s, exists calls : list event,
    let r := for_each attrs (fun attribute =>
               obj ← getattr_main_loop attribute;
               filename ← dict_getitem d attribute;
               call_secure_pickle_dump obj (VStr filename)) s in
    main_loop (snd r) = main_loop s
    /\ trace (snd r) = trace s ++ calls
    /\ calls `prefix_of` separate_calls (main_loop s) p attrs
    /\ (fst r = Returned tt ->
        calls = separate_calls (main_loop s) p attrs
        /\ Forall (fun a => is_Some (lookup_attribute (main_loop s) a)) attrs).
Proof.
  induction attrs as [|a attrs IH]; intros Hd s.
  - exists []. cbn. rewrite app_nil_r. repeat split; auto.
  - rewrite for_each_cons, (save_attribute_run d p) by (apply Hd; left).
    cbn [separate_calls].
    destruct (lookup_attribute (main_loop s) a) as [obj|] eqn:Hobj.
    + rewrite call_secure_pickle_dump_run.
      destruct (fst (secure_pickle_dump _ _ _)) as [e|].
      * exists [PickleCall obj (VStr (derived_path p a))]. cbn.
        split; [reflexivity|]. split; [reflexivity|].
        split; [apply prefix_cons, prefix_nil | discriminate].
      * destruct (IH (fun b Hb => Hd b (list_elem_of_further _ _ _ Hb))
                    {| main_loop := main_loop s;
                       world := snd (secure_pickle_dump obj
                                  (VStr (derived_path p a)) (world s));
                       trace := trace s ++ [PickleCall obj (VStr (derived_path p a))] |})
          as (calls & Hm & Ht & Hp & Hr).
        cbn in Hm, Ht, Hp, Hr.
        exists (PickleCall obj (VStr (derived_path p a)) :: calls). cbn.
        split; [exact Hm|]. split; [rewrite Ht, <- app_assoc; reflexivity|].
        split; [now apply prefix_cons|].
        intros Hret. destruct (Hr Hret) as [-> Hall].
        split; [reflexivity|]. constructor; [rewrite Hobj; eauto | exact Hall].
    + exists []. cbn. rewrite app_nil_r.
      split; [reflexivity|]. split; [reflexivity|].
      split; [apply prefix_nil | discriminate].
Qed.

(** The part of the [try] block of [Checkpoint.do] that follows the
    writing of the record: the main pickle, then the separate ones. *)
Lemma saving_run (self : Checkpoint.t) (path : value) s :
  exists calls : list event,
    let r := (m ← get_main_loop;
              call_secure_pickle_dump (ObjMainLoop m) path;;
              filenames ← Checkpoint.save_separately_filenames self path;
              for_each (Checkpoint.save_separately self) (fun attribute =>
                obj ← getattr_main_loop attribute;
                filename ← dict_getitem filenames attribute;
                call_secure_pickle_dump obj (VStr filename))) s in
    main_loop (snd r) = main_loop s
    /\ trace (snd r) =
       trace s ++ PickleCall (ObjMainLoop (main_loop s)) path :: calls
    /\ calls `prefix_of`
         separate_calls_to (main_loop s) path (Checkpoint.save_separately self)
    /\ (fst r = Returned tt ->
        calls = separate_calls_to (main_loop s) path
                  (Checkpoint.save_separately self)
        /\ Forall (fun a => is_Some (lookup_attribute (main_loop s) a))
             (Checkpoint.save_separately self)
        /\ exists p, path = VStr p).
Proof.
  rewrite bind_run. cbn [get_main_loop]. rewrite bind_run.
  rewrite call_secure_pickle_dump_run.
  destruct (fst (secure_pickle_dump _ _ _)) as [e|].
  { exists []. cbn. split; [reflexivity|]. split; [reflexivity|].
    split; [apply prefix_nil | discriminate]. }
  rewrite bind_run. unfold Checkpoint.save_separately_filenames.
  destruct path as [|z|p|items|id];
    try (exists []; cbn; split; [reflexivity|]; split; [reflexivity|];
         split; [apply prefix_nil | discriminate]).
  destruct (PosixPath.splitext p) as [root ext] eqn:Hsplit. cbn [mret M_ret].
  set (s1 := {| main_loop := main_loop s;
                world := snd (secure_pickle_dump (ObjMainLoop (main_loop s))
                                (VStr p) (world s));
                trace := trace s ++ [PickleCall (ObjMainLoop (main_loop s)) (VStr p)] |}).
  assert (Hd : forall a, a ∈ Checkpoint.save_separately self ->
            Checkpoint.filenames_dict root ext (Checkpoint.save_separately self)
              !! a = Some (derived_path p a)).
  { intros a Ha. unfold derived_path. rewrite Hsplit.
    now apply filenames_dict_lookup. }
  destruct (save_loop_run _ p _ Hd s1) as (calls & Hm & Ht & Hp & Hr).
  cbn zeta in Hm, Ht, Hp, Hr. exists calls. cbn zeta.
  split; [exact Hm|]. split; [rewrite Ht; subst s1; cbn; now rewrite <- app_assoc|].
  split; [exact Hp|].
  intros Hret. destruct (Hr Hret) as [Hc Hall]. eauto.
Qed.

(** The [try] block of [Checkpoint.do] once the path is chosen. *)
Lemma do_try_from_path (self : Checkpoint.t) (used : value) s :
  let r := (m ← get_main_loop;
            let already_saved_to :=
              default (VTuple []) (current_row (log m) !! SAVED_TO) in
            record ← tuple_concat already_saved_to [used];
            set_current_row SAVED_TO record;;
            m ← get_main_loop;
            call_secure_pickle_dump (ObjMainLoop m) used;;
            filenames ← Checkpoint.save_separately_filenames self used;
            for_each (Checkpoint.save_separately self) (fun attribute =>
              obj ← getattr_main_loop attribute;
              filename ← dict_getitem filenames attribute;
              call_secure_pickle_dump obj (VStr filename))) s in
  (exists e, r = (Raised e, s) /\ is_Exception e = true
             /\ forall xs, already_saved_to s <> VTuple xs)
  \/ (exists (xs : list value) (calls : list event),
        already_saved_to s = VTuple xs
        /\ let m1 := set_record SAVED_TO (VTuple (xs ++ [used])) (main_loop s) in
           main_loop (snd r) = m1
           /\ trace (snd r) = trace s ++ PickleCall (ObjMainLoop m1) used :: calls
           /\ calls `prefix_of`
                separate_calls_to m1 used (Checkpoint.save_separately self)
           /\ (fst r = Returned tt ->
               calls = separate_calls_to m1 used (Checkpoint.save_separately self)
               /\ Forall (fun a => is_Some (lookup_attribute m1 a))
                    (Checkpoint.save_separately self)
               /\ exists p, used = VStr p)).
Proof.
  cbn zeta. rewrite bind_run. cbn [get_main_loop]. rewrite bind_run.
  unfold already_saved_to, saved_to.
  destruct (default (VTuple []) (current_row (log (main_loop s)) !! SAVED_TO))
    as [|z|str|xs|id] eqn:Hprev;
    cbn [tuple_concat mret M_ret raise];
    try (left; eexists; split; [reflexivity|]; split; [reflexivity|];
         intros xs; discriminate).
  right. exists xs. rewrite bind_run. cbn [set_current_row].
  destruct (saving_run self used
              {| main_loop := set_record SAVED_TO (VTuple (xs ++ [used])) (main_loop s);
                 world := world s; trace := trace s |}) as (calls & H).
  exists calls. split; [reflexivity | exact H].
Qed.

(** Every run of the [try] block of [Checkpoint.do]: either it raises
    before anything is written, or it writes the extended tuple and starts
    saving. *)
Lemma do_try_run (self : Checkpoint.t) (from_user : list value) s :
  (exists e, Checkpoint.do_try self from_user s = (Raised e, s)
             /\ is_Exception e = true
             /\ (1 < length from_user
                 \/ forall xs, already_saved_to s <> VTuple xs))
  \/ (exists (xs : list value) (calls : list event),
        length from_user <= 1
        /\ already_saved_to s = VTuple xs
        /\ let used := used_path self from_user in
           let m1 := set_record SAVED_TO (VTuple (xs ++ [used])) (main_loop s) in
           let r := Checkpoint.do_try self from_user s in
           main_loop (snd r) = m1
           /\ trace (snd r) = trace s ++ PickleCall (ObjMainLoop m1) used :: calls
           /\ calls `prefix_of`
                separate_calls_to m1 used (Checkpoint.save_separately self)
           /\ (fst r = Returned tt ->
               calls = separate_calls_to m1 used (Checkpoint.save_separately self)
               /\ Forall (fun a => is_Some (lookup_attribute m1 a))
                    (Checkpoint.save_separately self)
               /\ exists p, used = VStr p)).
Proof.
  unfold Checkpoint.do_try. rewrite bind_run.
  destruct from_user as [|p [|q from_user]]; cbn [unpack_single mret M_ret raise].
  - destruct (do_try_from_path self (Checkpoint.path self) s)
      as [(e & He & Hexc & Hno)|(xs & calls & Hprev & H)]; [left; eauto|].
    right. exists xs, calls. split; [cbn; lia|]. split; [exact Hprev | exact H].
  - destruct (do_try_from_path self p s)
      as [(e & He & Hexc & Hno)|(xs & calls & Hprev & H)]; [left; eauto|].
    right. exists xs, calls. split; [cbn; lia|]. split; [exact Hprev | exact H].
  - left. eexists. split; [reflexivity|]. split; [reflexivity|].
    left. cbn. lia.
Qed.

(** [Checkpoint.do] is its [try] block followed, for an [Exception], by
    the handler. *)
Lemma do_run (self : Checkpoint.t) (callback_name : string) (args : list value) s :
  Checkpoint.do self callback_name args s =
  match Checkpoint.do_try self (snd (parse_args callback_name args)) s with
  | (Returned a, s') => (Returned a, s')
  | (Raised e, s') =>
      if is_Exception e then (Raised e, record_saved_to VNone s')
      else (Raised e, s')
  end.
Proof.
  unfold Checkpoint.do. destruct (parse_args callback_name args) as [fm fu].
  reflexivity.
Qed.

(** With two or more arguments from the user, [path, = from_user] raises
    a [ValueError], which the handler records as a failure. *)
Lemma do_too_many_arguments (self : Checkpoint.t) (callback_name : string)
    (args : list value) (p q : value) (rest : list value) s :
  snd (parse_args callback_name args) = p :: q :: rest ->
  Checkpoint.do self callback_name args s =
  (Raised (mkExc ValueError "too many values to unpack"),
   record_saved_to VNone s).
Proof. intros H. rewrite do_run, H. reflexivity. Qed.

(** ** The frame of [Checkpoint.do] *)

Lemma same_except_refl m : same_except_saved_to m m.
Proof. repeat split. Qed.

Lemma same_except_set_record m m' (v : value) :
  same_except_saved_to m m' ->
  same_except_saved_to m (set_record SAVED_TO v m').
Proof.
  intros (Ha & Hp & Hr). repeat split; cbn; [exact Ha | exact Hp |].
  now rewrite delete_insert_eq.
Qed.

(** C7: [Checkpoint.do] creates and destroys no part of the main loop:
    whatever the outcome of the run, the attributes of the main loop, the
    earlier rows of the log and every entry of the current row other than
    the one under ["saved_to"] are the same after the run as before. *)
Theorem checkpoint_do_frame (self : Checkpoint.t) (callback_name : string)
    (args : list value) s :
  same_except_saved_to (main_loop s)
    (main_loop (snd (Checkpoint.do self callback_name args s))).
Proof.
  rewrite do_run.
  destruct (do_try_run self (snd (parse_args callback_name args)) s)
    as [(e & He & Hexc & _) | (xs & calls & _ & _ & H)].
  - rewrite He, Hexc. cbn.
    apply same_except_set_record, same_except_refl.
  - cbn zeta in H. destruct H as (Hm & _).
    destruct (Checkpoint.do_try _ _ s) as [[[]|e] s1]; cbn [snd] in *.
    + rewrite Hm. apply same_except_set_record, same_except_refl.
    + destruct (is_Exception e); cbn [snd record_saved_to main_loop]; rewrite Hm;
        repeat apply same_except_set_record; apply same_except_refl.
Qed.

(** ** The record of a successful checkpoint *)

Lemma do_returned (self : Checkpoint.t) (callback_name : string)
    (args : list value) s s' :
  Checkpoint.do self callback_name args s = (Returned tt, s') ->
  Checkpoint.do_try self (snd (parse_args callback_name args)) s = (Returned tt, s').
Proof.
  rewrite do_run.
  destruct (Checkpoint.do_try _ _ s) as [[[]|e] s1]; [trivial|].
  destruct (is_Exception e); discriminate.
Qed.

Lemma already_saved_to_cases s (xs : list value) :
  already_saved_to s = VTuple xs ->
  saved_to s = None /\ xs = [] \/ saved_to s = Some (VTuple xs).
Proof.
  unfold already_saved_to. destruct (saved_to s) as [v|]; cbn.
  - intros ->. now right.
  - intros [= <-]. now left.
Qed.

Lemma saved_to_set_record s m (v : value) :
  main_loop s = set_record SAVED_TO v m -> saved_to s = Some v.
Proof. unfold saved_to. intros ->. cbn. apply lookup_insert_eq. Qed.

Lemma do_returned_record (self : Checkpoint.t) (callback_name : string)
    (args : list value) s s' :
  Checkpoint.do self callback_name args s = (Returned tt, s') ->
  exists xs : list value,
    already_saved_to s = VTuple xs
    /\ saved_to s' =
       Some (VTuple (xs ++ [used_path self (snd (parse_args callback_name args))])).
Proof.
  intros Hdo. apply do_returned in Hdo.
  destruct (do_try_run self (snd (parse_args callback_name args)) s)
    as [(e & He & _ & _) | (xs & calls & _ & Hprev & H)].
  - rewrite He in Hdo. discriminate.
  - cbn zeta in H. rewrite Hdo in H. cbn [fst snd] in H.
    destruct H as (Hm & _). exists xs. split; [exact Hprev|].
    now apply saved_to_set_record in Hm.
Qed.

(** C9: a run of [Checkpoint.do] that returns normally leaves under
    ["saved_to"] the tuple that was there before (the empty tuple when the
    key was absent) with the path used appended as its last element; hence
    a sequence of successful runs within one row accumulates the paths used,
    in order. *)
Theorem checkpoint_do_accumulates (self : Checkpoint.t) :
  (forall callback_name args s s',
     Checkpoint.do self callback_name args s = (Returned tt, s') ->
     exists xs : list value,
       (saved_to s = None /\ xs = [] \/ saved_to s = Some (VTuple xs))
       /\ saved_to s' =
          Some (VTuple (xs ++ [used_path self
                                 (snd (parse_args callback_name args))])))
  /\ (forall calls s s' (xs : list value),
        already_saved_to s = VTuple xs ->
        run_all self calls s = (Returned tt, s') ->
        already_saved_to s' = VTuple (xs ++ used_paths self calls)).
Proof.
  split.
  - intros cb args s s' Hdo.
    destruct (do_returned_record _ _ _ _ _ Hdo) as (xs & Hprev & Hnew).
    exists xs. split; [now apply already_saved_to_cases | exact Hnew].
  - induction calls as [|[cb args] calls IH]; intros s s' xs Hprev Hrun.
    + injection Hrun as <-. cbn. now rewrite app_nil_r.
    + unfold run_all in Hrun. rewrite for_each_cons in Hrun. cbn [fst snd] in Hrun.
      destruct (Checkpoint.do self cb args s) as [[[]|e] s1] eqn:Hdo;
        [|discriminate].
      destruct (do_returned_record _ _ _ _ _ Hdo) as (ys & Hys & Hnew).
      rewrite Hprev in Hys. injection Hys as <-.
      rewrite (IH s1 s' (xs ++ [used_path self (snd (parse_args cb args))])).
      * cbn. now rewrite <- app_assoc.
      * unfold already_saved_to. now rewrite Hnew.
      * exact Hrun.
Qed.

(** ** Derived file names *)

(** C5: for a path [p] and an attribute name [a] of [save_separately],
    [save_separately_filenames(p)] returns a dictionary that maps [a] to
    [root + "_" + a + ext], where [(root, ext) = splitext(p)] and hence
    [root + ext = p]; the names in [save_separately] are its only keys. *)
Theorem save_separately_filenames_derived (self : Checkpoint.t) (p a : string) s :
  a ∈ Checkpoint.save_separately self ->
  exists d : gmap string string,
    Checkpoint.save_separately_filenames self (VStr p) s = (Returned d, s)
    /\ d !! a = Some (fst (PosixPath.splitext p) +:+ "_" +:+ a
                      +:+ snd (PosixPath.splitext p))
    /\ fst (PosixPath.splitext p) +:+ snd (PosixPath.splitext p) = p
    /\ (forall b, is_Some (d !! b) -> b ∈ Checkpoint.save_separately self).
Proof.
  intros Ha. unfold Checkpoint.save_separately_filenames.
  destruct (PosixPath.splitext p) as [root ext] eqn:Hsplit.
  eexists. split; [reflexivity|]. cbn [fst snd].
  split; [now apply filenames_dict_lookup|].
  split; [rewrite <- (splitext_concat p), Hsplit; reflexivity|].
  intros b Hb. apply filenames_fold_dom in Hb as [Hb|[x Hx]]; [exact Hb|].
  rewrite lookup_empty in Hx. discriminate.
Qed.

(** ** Loading a dump *)

Lemma before_training_run (self : LoadFromDump.t) s :
  LoadFromDump.before_training self s =
  let dump_folder := folder (LoadFromDump.manager self) in
  if path_exists dump_folder (world s) then
    let loaded := manager_load_to dump_folder (main_loop s) (world s) in
    let tr := trace s ++ [LogInfo ("Loading the state from " +:+ dump_folder
                                   +:+ " into the main loop");
                          LoadCall dump_folder] in
    match fst (fst loaded) with
    | None =>
        (Returned tt,
         {| main_loop := set_record LOADED_FROM (VStr dump_folder) (snd (fst loaded));
            world := snd loaded; trace := tr |})
    | Some e =>
        (Raised (if is_Exception e
                 then reraise_as "Failed to load the state" e else e),
         {| main_loop := snd (fst loaded); world := snd loaded; trace := tr |})
    end
  else
    (Returned tt,
     {| main_loop := main_loop s; world := world s;
        trace := trace s ++ [LogInfo "No dump found"] |}).
Proof.
  unfold LoadFromDump.before_training. rewrite bind_run. cbn [os_path_exists].
  destruct (path_exists _ (world s)); cbn [negb]; [|reflexivity].
  rewrite bind_run. cbn [logger_info emit].
  unfold try_except_Exception. rewrite bind_run. unfold call_load_to.
  cbn [main_loop world trace].
  destruct (manager_load_to _ _ _) as [[[e|] m] w]; cbn.
  - rewrite <- app_assoc. destruct (is_Exception e); reflexivity.
  - rewrite <- app_assoc. reflexivity.
Qed.

Lemma before_training_loaded (self : LoadFromDump.t) s :
  path_exists (folder (LoadFromDump.manager self)) (world s) = true ->
  fst (LoadFromDump.before_training self s) = Returned tt ->
  loaded_from (snd (LoadFromDump.before_training self s)) =
  Some (VStr (folder (LoadFromDump.manager self))).
Proof.
  rewrite before_training_run. cbn zeta. intros -> Hret.
  destruct (fst (fst (manager_load_to _ _ _))); [discriminate|].
  unfold loaded_from. cbn. apply lookup_insert_eq.
Qed.

(** C6: when the dump folder exists and [load_to] raises nothing,
    [LoadFromDump.before_training] returns normally and the current row of
    the log then holds, under ["loaded_from"], the folder of the manager
    built from the [state_path] given at construction. *)
Theorem load_from_dump_records_folder (state_path : string) s :
  let self := LoadFromDump.init state_path in
  let dump_folder := manager_folder state_path in
  path_exists dump_folder (world s) = true ->
  fst (fst (manager_load_to dump_folder (main_loop s) (world s))) = None ->
  folder (LoadFromDump.manager self) = dump_folder
  /\ fst (LoadFromDump.before_training self s) = Returned tt
  /\ loaded_from (snd (LoadFromDump.before_training self s)) =
     Some (VStr dump_folder).
Proof.
  intros self dump_folder Hexists Hload. split; [reflexivity|].
  assert (Hret : fst (LoadFromDump.before_training self s) = Returned tt).
  { rewrite before_training_run. cbn zeta. subst self. cbn [LoadFromDump.init
      LoadFromDump.manager folder]. fold dump_folder. rewrite Hexists, Hload.
    reflexivity. }
  split; [exact Hret|].
  now apply (before_training_loaded self s).
Qed.

(** C8: when the dump folder does not exist,
    [LoadFromDump.before_training] returns without raising, writes no
    ["loaded_from"] record and leaves the main loop (and the world) as it
    was; it only logs that no dump was found. *)
Theorem load_from_dump_without_folder (self : LoadFromDump.t) s :
  path_exists (folder (LoadFromDump.manager self)) (world s) = false ->
  exists s',
    LoadFromDump.before_training self s = (Returned tt, s')
    /\ main_loop s' = main_loop s
    /\ loaded_from s' = loaded_from s
    /\ world s' = world s
    /\ trace s' = trace s ++ [LogInfo "No dump found"].
Proof.
  intros Hmissing. rewrite before_training_run. cbn zeta. rewrite Hmissing.
  eexists. split; [reflexivity|]. repeat split.
Qed.

(** ** Dumping *)

Lemma dump_do_run (self : Dump.t) (callback_name : string) (args : list value) s :
  Dump.do self callback_name args s =
  let dump_folder := folder (Dump.manager self) in
  let m1 := set_record SAVED_TO (VStr dump_folder) (main_loop s) in
  let dumped := manager_dump dump_folder m1 (world s) in
  let tr := trace s ++ [DumpCall dump_folder m1] in
  match fst dumped with
  | None => (Returned tt, {| main_loop := m1; world := snd dumped; trace := tr |})
  | Some e =>
      (Raised e,
       {| main_loop := if is_Exception e then set_record SAVED_TO VNone m1 else m1;
          world := snd dumped; trace := tr |})
  end.
Proof.
  unfold Dump.do, try_except_Exception, Dump.do_try. rewrite bind_run.
  cbn [set_current_row]. unfold call_dump. cbn [main_loop world trace].
  destruct (manager_dump _ _ _) as [[e|] w]; cbn; [|reflexivity].
  destruct (is_Exception e); reflexivity.
Qed.

(** ** Failures *)

Lemma saved_to_record_saved_to (v : value) s :
  saved_to (record_saved_to v s) = Some v.
Proof. unfold saved_to. cbn. apply lookup_insert_eq. Qed.

Lemma do_try_select (self : Checkpoint.t) (from_user : list value) (used : value) s :
  from_user = [used] \/ from_user = [] /\ used = Checkpoint.path self ->
  match from_user with
  | [] => mret (Checkpoint.path self)
  | _ :: _ => unpack_single from_user
  end s = (Returned used, s).
Proof. intros [->|[-> ->]]; reflexivity. Qed.

(** The [try] block of [Checkpoint.do] up to the main pickle. *)
Lemma do_try_main_pickle (self : Checkpoint.t) (from_user : list value)
    (used : value) (xs : list value) s :
  from_user = [used] \/ from_user = [] /\ used = Checkpoint.path self ->
  already_saved_to s = VTuple xs ->
  let m1 := set_record SAVED_TO (VTuple (xs ++ [used])) (main_loop s) in
  let s1 := {| main_loop := m1;
               world := snd (secure_pickle_dump (ObjMainLoop m1) used (world s));
               trace := trace s ++ [PickleCall (ObjMainLoop m1) used] |} in
  Checkpoint.do_try self from_user s =
  match fst (secure_pickle_dump (ObjMainLoop m1) used (world s)) with
  | Some e => (Raised e, s1)
  | None =>
      (filenames ← Checkpoint.save_separately_filenames self used;
       for_each (Checkpoint.save_separately self) (fun attribute =>
         obj ← getattr_main_loop attribute;
         filename ← dict_getitem filenames attribute;
         call_secure_pickle_dump obj (VStr filename))) s1
  end.
Proof.
  intros Hsel Hprev m1 s1. unfold Checkpoint.do_try.
  rewrite bind_run, (do_try_select self from_user used s Hsel).
  rewrite bind_run. cbn [get_main_loop]. cbn zeta.
  unfold already_saved_to, saved_to in Hprev. rewrite Hprev.
  cbn [tuple_concat].
  do 4 (rewrite ?bind_run;
        cbn [mret M_ret set_current_row get_main_loop main_loop world trace]).
  rewrite call_secure_pickle_dump_run.
  cbn [main_loop world trace]. fold m1. fold s1.
  destruct (fst (secure_pickle_dump (ObjMainLoop m1) used (world s))); reflexivity.
Qed.

(** C1 (amended): in [Checkpoint.do] and [Dump.do] an exception of class
    [Exception] raised in the [try] block is handled once: [None] is
    written under ["saved_to"], nothing else changes and the same exception
    is raised to the caller.  In [LoadFromDump.before_training] an exception
    of class [Exception] raised by [load_to] is handed to [reraise_as] with
    the message ["Failed to load the state"]; what [reraise_as] raises
    reaches the caller and no record is written to the log. *)
Theorem exceptions_handled_once :
  (forall (self : Checkpoint.t) callback_name args s e s1,
     Checkpoint.do_try self (snd (parse_args callback_name args)) s = (Raised e, s1) ->
     is_Exception e = true ->
     Checkpoint.do self callback_name args s = (Raised e, record_saved_to VNone s1)
     /\ saved_to (record_saved_to VNone s1) = Some VNone)
  /\ (forall (self : Dump.t) callback_name args s e s1,
        Dump.do_try self s = (Raised e, s1) ->
        is_Exception e = true ->
        Dump.do self callback_name args s = (Raised e, record_saved_to VNone s1)
        /\ saved_to (record_saved_to VNone s1) = Some VNone)
  /\ (forall (self : LoadFromDump.t) s e,
        let dump_folder := folder (LoadFromDump.manager self) in
        let loaded := manager_load_to dump_folder (main_loop s) (world s) in
        path_exists dump_folder (world s) = true ->
        fst (fst loaded) = Some e ->
        is_Exception e = true ->
        LoadFromDump.before_training self s =
        (Raised (reraise_as "Failed to load the state" e),
         {| main_loop := snd (fst loaded); world := snd loaded;
            trace := trace s ++ [LogInfo ("Loading the state from " +:+ dump_folder
                                          +:+ " into the main loop");
                                 LoadCall dump_folder] |})).
Proof.
  split; [|split].
  - intros self cb args s e s1 Htry Hexc. rewrite do_run, Htry, Hexc.
    split; [reflexivity | apply saved_to_record_saved_to].
  - intros self cb args s e s1 Htry Hexc.
    unfold Dump.do, try_except_Exception. rewrite Htry, Hexc.
    split; [reflexivity | apply saved_to_record_saved_to].
  - intros self s e dump_folder loaded Hexists Hload Hexc.
    rewrite before_training_run. cbn zeta. fold dump_folder. rewrite Hexists.
    fold loaded. rewrite Hload, Hexc. reflexivity.
Qed.

(** ** The calls of a run, one by one *)

Lemma lookup_attribute_set_record (key : string) (v : value) m (a : string) :
  is_Some (lookup_attribute (set_record key v m) a) <->
  is_Some (lookup_attribute m a).
Proof.
  unfold lookup_attribute. destruct (decide (a = "log")); cbn; [|reflexivity].
  split; eauto.
Qed.

Lemma for_each_app {A : Type} (xs ys : list A) (body : A -> M unit) s :
  for_each (xs ++ ys) body s =
  match for_each xs body s with
  | (Returned _, s') => for_each ys body s'
  | (Raised e, s') => (Raised e, s')
  end.
Proof.
  revert s; induction xs as [|x xs IH]; intros s; [reflexivity|].
  cbn [app]. rewrite !for_each_cons.
  destruct (body x s) as [[[]|e] s']; [apply IH | reflexivity].
Qed.

(** When the main loop has every attribute and none of the calls raises,
    the loop over [save_separately] makes all of them and returns. *)
Lemma save_loop_succeeds (d : gmap string string) (p : string)
    (attrs : list string) :
  (forall a, a ∈ attrs -> d !! a = Some (derived_path p a)) ->
  forall s,
    Forall (fun a => is_Some (lookup_attribute (main_loop s) a)) attrs ->
    pickles_succeed (world s) (separate_calls (main_loop s) p attrs) ->
    for_each attrs (fun attribute =>
      obj ← getattr_main_loop attribute;
      filename ← dict_getitem d attribute;
      call_secure_pickle_dump obj (VStr filename)) s =
    (Returned tt,
     {| main_loop := main_loop s;
        world := after_pickles (world s) (separate_calls (main_loop s) p attrs);
        trace := trace s ++ separate_calls (main_loop s) p attrs |}).
Proof.
  induction attrs as [|a attrs IH]; intros Hd s Hall Hok.
  - destruct s. cbn. now rewrite app_nil_r.
  - rewrite for_each_cons, (save_attribute_run d p) by (apply Hd; left).
    inversion Hall as [|? ? [obj Hobj] Hall']; subst.
    cbn [separate_calls] in *. rewrite Hobj in *.
    cbn [pickles_succeed after_pickles] in *. destruct Hok as [Hcall Hok].
    rewrite call_secure_pickle_dump_run, Hcall.
    rewrite IH; [| intros b Hb; apply Hd; now right | exact Hall' | exact Hok].
    cbn [main_loop world trace]. now rewrite <- app_assoc.
Qed.

(** Whatever happens, the loop over [save_separately] makes the calls for
    the attributes in order, up to the first missing attribute or the
    first call that raises. *)
Lemma save_loop_exact (d : gmap string string) (p : string)
    (attrs : list string) :
  (forall a, a ∈ attrs -> d !! a = Some (derived_path p a)) ->
  forall s,
    let r := for_each attrs (fun attribute =>
               obj ← getattr_main_loop attribute;
               filename ← dict_getitem d attribute;
               call_secure_pickle_dump obj (VStr filename)) s in
    let made := made_calls (world s) (separate_calls (main_loop s) p attrs) in
    main_loop (snd r) = main_loop s
    /\ trace (snd r) = trace s ++ made
    /\ world (snd r) = after_pickles (world s) made.
Proof.
  induction attrs as [|a attrs IH]; intros Hd s; cbn zeta.
  - cbn. now rewrite app_nil_r.
  - rewrite for_each_cons, (save_attribute_run d p) by (apply Hd; left).
    cbn [separate_calls].
    destruct (lookup_attribute (main_loop s) a) as [obj|];
      [|cbn; now rewrite app_nil_r].
    rewrite call_secure_pickle_dump_run. cbn [made_calls after_pickles].
    destruct (fst (secure_pickle_dump _ _ _)) as [e|]; [cbn; auto|].
    destruct (IH (fun b Hb => Hd b (list_elem_of_further _ _ _ Hb))
                {| main_loop := main_loop s;
                   world := snd (secure_pickle_dump obj
                              (VStr (derived_path p a)) (world s));
                   trace := trace s ++ [PickleCall obj (VStr (derived_path p a))] |})
      as (Hm & Ht & Hw).
    cbn zeta in Hm, Ht, Hw. cbn [main_loop world trace] in Hm, Ht, Hw.
    split; [exact Hm|]. split; [rewrite Ht; now rewrite <- app_assoc | exact Hw].
Qed.

Lemma filenames_for_path (self : Checkpoint.t) (p : string) s :
  exists d : gmap string string,
    Checkpoint.save_separately_filenames self (VStr p) s = (Returned d, s)
    /\ forall a, a ∈ Checkpoint.save_separately self ->
         d !! a = Some (derived_path p a).
Proof.
  unfold Checkpoint.save_separately_filenames, derived_path.
  destruct (PosixPath.splitext p) as [root ext]. eexists.
  split; [reflexivity|]. intros a Ha. now apply filenames_dict_lookup.
Qed.

(** The calls of a whole run of [Checkpoint.do] that got past the writing
    of the record. *)
Lemma do_calls_exact (self : Checkpoint.t) (callback_name : string)
    (args : list value) (used : value) (xs : list value) s :
  let from_user := snd (parse_args callback_name args) in
  let m1 := set_record SAVED_TO (VTuple (xs ++ [used])) (main_loop s) in
  let r := Checkpoint.do self callback_name args s in
  let made := made_calls (world s)
                (PickleCall (ObjMainLoop m1) used
                   :: separate_calls_to m1 used (Checkpoint.save_separately self)) in
  from_user = [used] \/ from_user = [] /\ used = Checkpoint.path self ->
  already_saved_to s = VTuple xs ->
  trace (snd r) = trace s ++ made
  /\ world (snd r) = after_pickles (world s) made.
Proof.
  intros from_user m1 r made Hsel Hprev. subst r made.
  rewrite do_run. fold from_user.
  rewrite (do_try_main_pickle self from_user used xs s Hsel Hprev).
  cbn zeta. fold m1. cbn [made_calls after_pickles].
  destruct (fst (secure_pickle_dump (ObjMainLoop m1) used (world s))) as [e|].
  { destruct (is_Exception e); cbn; auto. }
  rewrite bind_run.
  destruct used as [|z|p|items|id];
    try (cbn; rewrite <- ?app_assoc; auto; fail).
  destruct (filenames_for_path self p
              {| main_loop := m1;
                 world := snd (secure_pickle_dump (ObjMainLoop m1) (VStr p) (world s));
                 trace := trace s ++ [PickleCall (ObjMainLoop m1) (VStr p)] |})
    as (d & -> & Hd).
  destruct (save_loop_exact d p _ Hd
              {| main_loop := m1;
                 world := snd (secure_pickle_dump (ObjMainLoop m1) (VStr p) (world s));
                 trace := trace s ++ [PickleCall (ObjMainLoop m1) (VStr p)] |})
    as (_ & Ht & Hw).
  cbn zeta in Ht, Hw. cbn [main_loop world trace] in Ht, Hw.
  cbn [separate_calls_to].
  destruct (for_each _ _ _) as [[[]|e] s2]; cbn [fst snd] in *.
  - split; [rewrite Ht; now rewrite <- app_assoc | exact Hw].
  - destruct (is_Exception e); cbn [snd record_saved_to trace world];
      (split; [rewrite Ht; now rewrite <- app_assoc | exact Hw]).
Qed.

(** The run of [Checkpoint.do] up to an attribute of [save_separately]:
    when the main pickle and the pickles of the attributes before it
    return, the state is the one those calls leave. *)
Lemma do_try_up_to (self : Checkpoint.t) (from_user : list value)
    (p : string) (xs : list value) (before : list string) (a : string)
    (after : list string) s :
  let m1 := set_record SAVED_TO (VTuple (xs ++ [VStr p])) (main_loop s) in
  let done := PickleCall (ObjMainLoop m1) (VStr p) :: separate_calls m1 p before in
  let s2 := {| main_loop := m1; world := after_pickles (world s) done;
               trace := trace s ++ done |} in
  from_user = [VStr p] \/ from_user = [] /\ VStr p = Checkpoint.path self ->
  already_saved_to s = VTuple xs ->
  Checkpoint.save_separately self = before ++ a :: after ->
  Forall (fun b => is_Some (lookup_attribute m1 b)) before ->
  pickles_succeed (world s) done ->
  exists d : gmap string string,
    (forall b, b ∈ before ++ a :: after -> d !! b = Some (derived_path p b))
    /\ Checkpoint.do_try self from_user s =
       match lookup_attribute m1 a with
       | None => (Raised (mkExc AttributeError a), s2)
       | Some obj =>
           match call_secure_pickle_dump obj (VStr (derived_path p a)) s2 with
           | (Returned _, s3) =>
               for_each after (fun attribute =>
                 obj ← getattr_main_loop attribute;
                 filename ← dict_getitem d attribute;
                 call_secure_pickle_dump obj (VStr filename)) s3
           | (Raised e, s3) => (Raised e, s3)
           end
       end.
Proof.
  intros m1 done s2 Hsel Hprev Hattrs Hall Hok.
  subst done. cbn [pickles_succeed] in Hok. destruct Hok as [Hmain Hok].
  rewrite (do_try_main_pickle self from_user (VStr p) xs s Hsel Hprev).
  cbn zeta. fold m1. rewrite Hmain. rewrite bind_run.
  set (s1 := {| main_loop := m1;
                world := snd (secure_pickle_dump (ObjMainLoop m1) (VStr p) (world s));
                trace := trace s ++ [PickleCall (ObjMainLoop m1) (VStr p)] |}).
  destruct (filenames_for_path self p s1) as (d & -> & Hd).
  rewrite Hattrs in Hd |- *. exists d. split; [exact Hd|].
  rewrite for_each_app.
  rewrite (save_loop_succeeds d p before) with (s := s1);
    [| intros b Hb; apply Hd, elem_of_app; now left | exact Hall | exact Hok].
  rewrite for_each_cons, (save_attribute_run d p)
    by (apply Hd, elem_of_app; right; left).
  subst s1 s2. cbn [main_loop world trace after_pickles].
  rewrite <- app_assoc. destruct (lookup_attribute m1 a); reflexivity.
Qed.

(** C2 (amended): when serialization fails with an exception of class
    [Exception] ([secure_pickle_dump] in [Checkpoint.do], on the main loop
    or on a separately saved attribute, or [manager.dump] in [Dump.do]),
    the current row of the log afterwards holds [None] under ["saved_to"]
    and that exception itself leaves [do]; an exception that is not of
    class [Exception] leaves [do] as well, but the record written before
    the attempt stays.  More generally every run of [Checkpoint.do] that
    raises an exception of class [Exception] leaves [None] under
    ["saved_to"]. *)
Theorem serialization_failure_recorded :
  (forall (self : Checkpoint.t) callback_name args (used : value)
          (xs : list value) s e,
     let from_user := snd (parse_args callback_name args) in
     let m1 := set_record SAVED_TO (VTuple (xs ++ [used])) (main_loop s) in
     let r := Checkpoint.do self callback_name args s in
     from_user = [used] \/ from_user = [] /\ used = Checkpoint.path self ->
     already_saved_to s = VTuple xs ->
     fst (secure_pickle_dump (ObjMainLoop m1) used (world s)) = Some e ->
     fst r = Raised e
     /\ saved_to (snd r) =
        Some (if is_Exception e then VNone else VTuple (xs ++ [used])))
  /\ (forall (self : Checkpoint.t) callback_name args (p : string)
             (xs : list value) (before : list string) (a : string)
             (after : list string) (obj : pyobject) s e,
        let from_user := snd (parse_args callback_name args) in
        let m1 := set_record SAVED_TO (VTuple (xs ++ [VStr p])) (main_loop s) in
        let done := PickleCall (ObjMainLoop m1) (VStr p)
                      :: separate_calls m1 p before in
        let r := Checkpoint.do self callback_name args s in
        from_user = [VStr p] \/ from_user = [] /\ VStr p = Checkpoint.path self ->
        already_saved_to s = VTuple xs ->
        Checkpoint.save_separately self = before ++ a :: after ->
        Forall (fun b => is_Some (lookup_attribute m1 b)) before ->
        lookup_attribute m1 a = Some obj ->
        pickles_succeed (world s) done ->
        fst (secure_pickle_dump obj (VStr (derived_path p a))
               (after_pickles (world s) done)) = Some e ->
        fst r = Raised e
        /\ saved_to (snd r) =
           Some (if is_Exception e then VNone else VTuple (xs ++ [VStr p])))
  /\ (forall (self : Checkpoint.t) callback_name args s e,
        fst (Checkpoint.do self callback_name args s) = Raised e ->
        is_Exception e = true ->
        saved_to (snd (Checkpoint.do self callback_name args s)) = Some VNone)
  /\ (forall (self : Dump.t) callback_name args s e,
        let dump_folder := folder (Dump.manager self) in
        let m1 := set_record SAVED_TO (VStr dump_folder) (main_loop s) in
        let r := Dump.do self callback_name args s in
        fst (manager_dump dump_folder m1 (world s)) = Some e ->
        fst r = Raised e
        /\ saved_to (snd r) =
           Some (if is_Exception e then VNone else VStr dump_folder)).
Proof.
  split; [|split; [|split]].
  - intros self cb args used xs s e from_user m1 r Hsel Hprev Hfail. subst r.
    rewrite do_run. fold from_user.
    rewrite (do_try_main_pickle self from_user used xs s Hsel Hprev).
    cbn zeta. fold m1. rewrite Hfail.
    destruct (is_Exception e); cbn [fst snd]; (split; [reflexivity|]).
    + apply saved_to_record_saved_to.
    + unfold saved_to. cbn. apply lookup_insert_eq.
  - intros self cb args p xs before a after obj s e from_user m1 done r
      Hsel Hprev Hattrs Hall Hobj Hok Hfail. subst r.
    rewrite do_run. fold from_user.
    destruct (do_try_up_to self from_user p xs before a after s
                Hsel Hprev Hattrs Hall Hok) as (d & _ & ->).
    fold m1. rewrite Hobj, call_secure_pickle_dump_run.
    cbn [main_loop world trace]. fold m1 done. rewrite Hfail.
    destruct (is_Exception e); cbn [fst snd]; (split; [reflexivity|]).
    + apply saved_to_record_saved_to.
    + unfold saved_to. cbn. apply lookup_insert_eq.
  - intros self cb args s e. rewrite do_run.
    destruct (Checkpoint.do_try _ _ s) as [[[]|e'] s1]; cbn [fst snd];
      [discriminate|].
    destruct (is_Exception e') eqn:Hexc'; cbn [fst snd].
    + intros _ _. apply saved_to_record_saved_to.
    + intros [= ->] Hexc. congruence.
  - intros self cb args s e dump_folder m1 r Hfail. subst r.
    rewrite dump_do_run. cbn zeta. fold dump_folder. fold m1.
    rewrite Hfail. cbn [fst snd].
    split; [reflexivity|]. unfold saved_to.
    destruct (is_Exception e); cbn; apply lookup_insert_eq.
Qed.

(** ** Runs in which nothing fails *)

(** C3 (amended): a run of [Checkpoint.do] in which the previous
    ["saved_to"] record is absent or a tuple, the path is a string, the
    main loop has every attribute of [save_separately] and serialization
    raises nothing (none of the calls to the pickler that the run makes,
    for the main loop and then for each attribute, raises) returns normally
    and leaves under ["saved_to"] the previous tuple with the path appended
    as its last element; a run of [Dump.do] in which [manager.dump] raises
    nothing returns normally and leaves under ["saved_to"] exactly the dump
    folder. *)
Theorem success_records_path :
  (forall (self : Checkpoint.t) callback_name args
          (p : string) (xs : list value) s,
     let from_user := snd (parse_args callback_name args) in
     let m1 := set_record SAVED_TO (VTuple (xs ++ [VStr p])) (main_loop s) in
     from_user = [VStr p] \/ from_user = [] /\ VStr p = Checkpoint.path self ->
     already_saved_to s = VTuple xs ->
     Forall (fun a => is_Some (lookup_attribute (main_loop s) a))
       (Checkpoint.save_separately self) ->
     pickles_succeed (world s)
       (PickleCall (ObjMainLoop m1) (VStr p)
          :: separate_calls m1 p (Checkpoint.save_separately self)) ->
     fst (Checkpoint.do self callback_name args s) = Returned tt
     /\ saved_to (snd (Checkpoint.do self callback_name args s)) =
        Some (VTuple (xs ++ [VStr p])))
  /\ (forall (self : Dump.t) callback_name args s,
        let dump_folder := folder (Dump.manager self) in
        let m1 := set_record SAVED_TO (VStr dump_folder) (main_loop s) in
        fst (manager_dump dump_folder m1 (world s)) = None ->
        fst (Dump.do self callback_name args s) = Returned tt
        /\ saved_to (snd (Dump.do self callback_name args s)) =
           Some (VStr dump_folder)).
Proof.
  split.
  - intros self cb args p xs s from_user m1 Hsel Hprev Hall Hok.
    cbn [pickles_succeed] in Hok. destruct Hok as [Hmain Hok].
    rewrite do_run. fold from_user.
    rewrite (do_try_main_pickle self from_user (VStr p) xs s Hsel Hprev).
    cbn zeta. fold m1. rewrite Hmain, bind_run.
    set (s1 := {| main_loop := m1;
                  world := snd (secure_pickle_dump (ObjMainLoop m1) (VStr p) (world s));
                  trace := trace s ++ [PickleCall (ObjMainLoop m1) (VStr p)] |}).
    destruct (filenames_for_path self p s1) as (d & -> & Hd).
    rewrite (save_loop_succeeds d p _ Hd s1); [| | exact Hok].
    + cbn [fst snd]. split; [reflexivity|]. unfold saved_to. cbn.
      apply lookup_insert_eq.
    + cbn [main_loop]. eapply Forall_impl; [exact Hall|].
      intros a Ha. now apply lookup_attribute_set_record.
  - intros self cb args s dump_folder m1 Hok.
    rewrite dump_do_run. cbn zeta. fold dump_folder. fold m1. rewrite Hok.
    split; [reflexivity|]. unfold saved_to. cbn. apply lookup_insert_eq.
Qed.

(** ** The path a checkpoint is saved to *)

(** C10: when [parse_args] hands [Checkpoint.do] one argument from the
    user, that argument takes the place of the construction-time path in
    every respect (the run is the run of a checkpoint constructed with it);
    with no argument from the user the construction-time path is used.  In
    both cases the calls that the run makes are exactly: the pickling of
    the main loop to the path used, then, for each attribute of
    [save_separately] in order, the pickling of that attribute to the file
    name derived from the path used, up to the first call that raises or
    the first attribute that is missing; and the path used is the last
    element of the ["saved_to"] record of a run that returns normally. *)
Theorem checkpoint_do_user_path (self : Checkpoint.t) (callback_name : string)
    (args : list value) (used : value) s :
  let from_user := snd (parse_args callback_name args) in
  from_user = [used] \/ from_user = [] /\ used = Checkpoint.path self ->
  (forall callback_name0 args0,
     snd (parse_args callback_name0 args0) = [] ->
     Checkpoint.do self callback_name args s =
     Checkpoint.do
       {| Checkpoint.path := used;
          Checkpoint.save_separately := Checkpoint.save_separately self |}
       callback_name0 args0 s)
  /\ (forall xs : list value,
        already_saved_to s = VTuple xs ->
        let m1 := set_record SAVED_TO (VTuple (xs ++ [used])) (main_loop s) in
        let r := Checkpoint.do self callback_name args s in
        let expected :=
          PickleCall (ObjMainLoop m1) used
            :: separate_calls_to m1 used (Checkpoint.save_separately self) in
        trace (snd r) = trace s ++ made_calls (world s) expected
        /\ world (snd r) = after_pickles (world s) (made_calls (world s) expected)
        /\ (fst r = Returned tt ->
            trace (snd r) = trace s ++ expected
            /\ saved_to (snd r) = Some (VTuple (xs ++ [used])))).
Proof.
  intros from_user Hused. split.
  - intros cb0 args0 H0. rewrite !do_run, H0. fold from_user.
    destruct Hused as [->|[-> ->]]; [reflexivity|].
    destruct self; reflexivity.
  - intros xs Hprev. cbn zeta.
    destruct (do_calls_exact self callback_name args used xs s Hused Hprev)
      as [Ht Hw].
    split; [exact Ht|]. split; [exact Hw|]. intros Hret.
    assert (Hpath : used_path self from_user = used).
    { destruct Hused as [->|[-> ->]]; reflexivity. }
    destruct (Checkpoint.do self callback_name args s) as [o s'] eqn:Hdo.
    cbn [fst snd] in *. subst o.
    destruct (do_returned_record _ _ _ _ _ Hdo) as (ys & Hys & Hnew).
    rewrite Hprev in Hys. injection Hys as <-.
    fold from_user in Hnew. rewrite Hpath in Hnew. split; [|exact Hnew].
    apply do_returned in Hdo. fold from_user in Hdo.
    destruct (do_try_run self from_user s)
      as [(e & He & _) | (zs & calls & _ & Hzs & H)].
    + rewrite He in Hdo. discriminate.
    + rewrite Hprev in Hzs. injection Hzs as <-.
      cbn zeta in H. rewrite Hpath, Hdo in H. cbn [fst snd] in H.
      destruct H as (_ & Ht' & _ & Hr). destruct (Hr eq_refl) as (-> & _).
      exact Ht'.
Qed.

(** ** The shape of the records *)

(** C4 (amended): after every run of [Checkpoint.do] the ["saved_to"]
    record is [None] or the previous tuple with the path used appended;
    after every run of [Dump.do] it is [None] or the dump folder; after a
    run of [LoadFromDump.before_training] that finds the dump folder and
    returns normally the ["loaded_from"] record is the dump folder. *)
Theorem records_after_run :
  (forall (self : Checkpoint.t) callback_name args s,
     let s' := snd (Checkpoint.do self callback_name args s) in
     saved_to s' = Some VNone
     \/ exists xs : list value,
          already_saved_to s = VTuple xs
          /\ saved_to s' =
             Some (VTuple (xs ++ [used_path self
                                    (snd (parse_args callback_name args))])))
  /\ (forall (self : Dump.t) callback_name args s,
        let s' := snd (Dump.do self callback_name args s) in
        saved_to s' = Some VNone
        \/ saved_to s' = Some (VStr (folder (Dump.manager self))))
  /\ (forall (self : LoadFromDump.t) s,
        path_exists (folder (LoadFromDump.manager self)) (world s) = true ->
        fst (LoadFromDump.before_training self s) = Returned tt ->
        loaded_from (snd (LoadFromDump.before_training self s)) =
        Some (VStr (folder (LoadFromDump.manager self)))).
Proof.
  split; [|split].
  - intros self cb args s. cbn zeta. rewrite do_run.
    destruct (do_try_run self (snd (parse_args cb args)) s)
      as [(e & He & Hexc & _) | (xs & calls & _ & Hprev & H)].
    + rewrite He, Hexc. left. apply saved_to_record_saved_to.
    + cbn zeta in H. destruct H as (Hm & _).
      destruct (Checkpoint.do_try _ _ s) as [[[]|e] s1]; cbn [snd] in *.
      * right. exists xs. split; [exact Hprev|].
        now apply saved_to_set_record in Hm.
      * destruct (is_Exception e); cbn [snd].
        -- left. apply saved_to_record_saved_to.
        -- right. exists xs. split; [exact Hprev|].
           now apply saved_to_set_record in Hm.
  - intros self cb args s. cbn zeta. rewrite dump_do_run. cbn zeta.
    destruct (fst (manager_dump _ _ _)) as [e|]; cbn [snd].
    + destruct (is_Exception e); [left|right];
        unfold saved_to; cbn; apply lookup_insert_eq.
    + right. unfold saved_to. cbn. apply lookup_insert_eq.
  - intros self s. apply before_training_loaded.
Qed.

End Properties.

(** * The properties on the reference platform *)

(** ** Instances of the theorems *)

Lemma exceptions_handled_once_witness :
  let s := Sim.start ∅ (Sim.faulty_world "run/model.pkl" Sim.disk_full) in
  let s1 := snd (Checkpoint.do_try (P := Sim.platform) Sim.checkpoint [] s) in
  Checkpoint.do (P := Sim.platform) Sim.checkpoint "after_epoch" [] s =
    (Raised Sim.disk_full, record_saved_to VNone s1)
  /\ saved_to (record_saved_to VNone s1) = Some VNone.
Proof.
  cbv zeta.
  apply (proj1 (exceptions_handled_once (P := Sim.platform))
           Sim.checkpoint "after_epoch" []
           (Sim.start ∅ (Sim.faulty_world "run/model.pkl" Sim.disk_full))
           Sim.disk_full).
  - vm_compute. reflexivity.
  - reflexivity.
Defined.

Lemma serialization_failure_recorded_witness :
  let s := Sim.start ∅ (Sim.faulty_world "run/model_log.pkl" Sim.disk_full) in
  let r := Checkpoint.do (P := Sim.platform) Sim.checkpoint "after_epoch" [] s in
  fst r = Raised Sim.disk_full /\ saved_to (snd r) = Some VNone.
Proof.
  cbv zeta.
  apply (proj1 (proj2 (serialization_failure_recorded (P := Sim.platform)))
           Sim.checkpoint "after_epoch" [] "run/model.pkl" [] [] "log" ["model"]
           (ObjLog (log (set_record SAVED_TO (VTuple [VStr "run/model.pkl"])
                           (Sim.fresh_main_loop ∅))))
           (Sim.start ∅ (Sim.faulty_world "run/model_log.pkl" Sim.disk_full))
           Sim.disk_full).
  - right. split; reflexivity.
  - reflexivity.
  - reflexivity.
  - constructor.
  - reflexivity.
  - vm_compute. repeat split; reflexivity.
  - vm_compute. reflexivity.
Defined.

Lemma success_records_path_witness :
  let s := Sim.start ∅ (Sim.faulty_world "elsewhere/other.pkl" Sim.disk_full) in
  let r := Checkpoint.do (P := Sim.platform) Sim.checkpoint "after_epoch"
             [VStr "run/best.pkl"] s in
  fst r = Returned tt
  /\ saved_to (snd r) = Some (VTuple [VStr "run/best.pkl"]).
Proof.
  cbv zeta.
  apply (proj1 (success_records_path (P := Sim.platform))
           Sim.checkpoint "after_epoch" [VStr "run/best.pkl"]
           "run/best.pkl" []
           (Sim.start ∅ (Sim.faulty_world "elsewhere/other.pkl" Sim.disk_full))).
  - left. reflexivity.
  - reflexivity.
  - repeat constructor; vm_compute; eauto.
  - vm_compute. repeat split; reflexivity.
Defined.

Lemma records_after_run_witness :
  let s := Sim.start ∅ Sim.dumped_world in
  let self := LoadFromDump.init (P := Sim.platform) "run/dump" in
  loaded_from (snd (LoadFromDump.before_training (P := Sim.platform) self s)) =
  Some (VStr "run/dump").
Proof.
  cbv zeta.
  apply (proj2 (proj2 (records_after_run (P := Sim.platform)))
           (LoadFromDump.init (P := Sim.platform) "run/dump")
           (Sim.start ∅ Sim.dumped_world)).
  - vm_compute. reflexivity.
  - vm_compute. reflexivity.
Defined.

Lemma save_separately_filenames_derived_witness :
  let s := Sim.start ∅ Sim.empty_world in
  exists d : gmap string string,
    Checkpoint.save_separately_filenames (P := Sim.platform) Sim.checkpoint
      (VStr "run/model.pkl") s = (Returned d, s)
    /\ d !! "log" = Some "run/model_log.pkl"
    /\ "run/model" +:+ ".pkl" = "run/model.pkl"
    /\ (forall b, is_Some (d !! b) ->
        b ∈ Checkpoint.save_separately Sim.checkpoint).
Proof.
  cbv zeta.
  apply (save_separately_filenames_derived (P := Sim.platform) Sim.checkpoint
           "run/model.pkl" "log" (Sim.start ∅ Sim.empty_world)).
  left.
Defined.

Lemma load_from_dump_records_folder_witness :
  let s := Sim.start ∅ Sim.dumped_world in
  let self := LoadFromDump.init (P := Sim.platform) "run/dump" in
  folder (LoadFromDump.manager self) = "run/dump"
  /\ fst (LoadFromDump.before_training (P := Sim.platform) self s) = Returned tt
  /\ loaded_from (snd (LoadFromDump.before_training (P := Sim.platform) self s)) =
     Some (VStr "run/dump").
Proof.
  cbv zeta.
  apply (load_from_dump_records_folder (P := Sim.platform) "run/dump"
           (Sim.start ∅ Sim.dumped_world)).
  - vm_compute. reflexivity.
  - vm_compute. reflexivity.
Defined.

Lemma load_from_dump_without_folder_witness :
  let s := Sim.start ∅ Sim.empty_world in
  exists s',
    LoadFromDump.before_training (P := Sim.platform)
      (LoadFromDump.init (P := Sim.platform) "run/dump") s = (Returned tt, s')
    /\ main_loop s' = main_loop s
    /\ loaded_from s' = loaded_from s
    /\ world s' = world s
    /\ trace s' = trace s ++ [LogInfo "No dump found"].
Proof.
  cbv zeta.
  apply (load_from_dump_without_folder (P := Sim.platform)
           (LoadFromDump.init (P := Sim.platform) "run/dump")
           (Sim.start ∅ Sim.empty_world)).
  vm_compute. reflexivity.
Defined.

Lemma checkpoint_do_accumulates_witness :
  let s := Sim.start ∅ Sim.empty_world in
  already_saved_to
    (snd (run_all (P := Sim.platform) Sim.checkpoint Sim.two_calls s)) =
  VTuple [VStr "run/model.pkl"; VStr "run/best.pkl"].
Proof.
  cbv zeta.
  apply (proj2 (checkpoint_do_accumulates (P := Sim.platform) Sim.checkpoint)
           Sim.two_calls (Sim.start ∅ Sim.empty_world) _ []).
  - reflexivity.
  - vm_compute. reflexivity.
Defined.

Lemma checkpoint_do_user_path_witness :
  let s := Sim.start ∅ Sim.empty_world in
  let r := Checkpoint.do (P := Sim.platform) Sim.checkpoint "after_epoch"
             [VStr "run/best.pkl"] s in
  let m1 := set_record SAVED_TO (VTuple [VStr "run/best.pkl"]) (main_loop s) in
  r = Checkpoint.do (P := Sim.platform)
        (Checkpoint.init (VStr "run/best.pkl") (Some ["log"; "model"]))
        "after_epoch" [] s
  /\ trace (snd r) =
     [PickleCall (ObjMainLoop m1) (VStr "run/best.pkl");
      PickleCall (ObjLog (log m1)) (VStr "run/best_log.pkl");
      PickleCall (ObjValue (VOpaque 1)) (VStr "run/best_model.pkl")]
  /\ saved_to (snd r) = Some (VTuple [VStr "run/best.pkl"]).
Proof.
  cbv zeta.
  destruct (checkpoint_do_user_path (P := Sim.platform) Sim.checkpoint
              "after_epoch" [VStr "run/best.pkl"] (VStr "run/best.pkl")
              (Sim.start ∅ Sim.empty_world) (or_introl eq_refl))
    as [Heq Hcalls].
  split; [apply (Heq "after_epoch" []); reflexivity|].
  destruct (Hcalls [] eq_refl) as (Ht & _ & Hr).
  split.
  - etransitivity; [exact Ht|]. vm_compute. reflexivity.
  - apply Hr. vm_compute. reflexivity.
Defined.

(** ** Where the code departs from the specification *)

(** C1 as stated fails: when [load_to] raises an [IOError],
    [LoadFromDump.before_training] raises and leaves the main loop as it
    was, with an empty current row, so that no failure marker is in the
    log; and a [KeyboardInterrupt] raised by the pickler passes through
    [Checkpoint.do] without being caught, with no failure marker but the
    path under ["saved_to"]. *)
Lemma load_failure_writes_no_marker :
  (let s := Sim.start ∅ (Sim.faulty_world "run/dump" Sim.read_error) in
   let r := LoadFromDump.before_training (P := Sim.platform)
              (LoadFromDump.init (P := Sim.platform) "run/dump") s in
   fst r = Raised Sim.read_error
   /\ main_loop (snd r) = main_loop s
   /\ forall key, current_row (log (main_loop (snd r))) !! key = None)
  /\ (let s := Sim.start ∅ (Sim.faulty_world "run/model.pkl" Sim.interrupt) in
      let r := Checkpoint.do (P := Sim.platform) Sim.checkpoint "after_epoch" [] s in
      fst r = Raised Sim.interrupt
      /\ saved_to (snd r) = Some (VTuple [VStr "run/model.pkl"])).
Proof.
  cbv zeta. split; [split; [|split]|split].
  - vm_compute. reflexivity.
  - vm_compute. reflexivity.
  - intros key.
    replace (current_row _) with (∅ : gmap string value)
      by (vm_compute; reflexivity).
    apply lookup_empty.
  - vm_compute. reflexivity.
  - vm_compute. reflexivity.
Qed.

(** C2 as stated fails: a [KeyboardInterrupt] raised by the pickler in
    [Checkpoint.do], or by [manager.dump] in [Dump.do], leaves [do] with
    the path, not [None], under ["saved_to"]. *)
Lemma interrupt_leaves_path_recorded :
  (let s := Sim.start ∅ (Sim.faulty_world "run/model.pkl" Sim.interrupt) in
   let r := Checkpoint.do (P := Sim.platform) Sim.checkpoint "after_epoch" [] s in
   fst r = Raised Sim.interrupt
   /\ saved_to (snd r) = Some (VTuple [VStr "run/model.pkl"])
   /\ saved_to (snd r) <> Some VNone)
  /\ (let s := Sim.start ∅ (Sim.faulty_world "run/dump" Sim.interrupt) in
      let r := Dump.do (P := Sim.platform) (Dump.init (P := Sim.platform) "run/dump")
                 "after_epoch" [] s in
      fst r = Raised Sim.interrupt
      /\ saved_to (snd r) = Some (VStr "run/dump")
      /\ saved_to (snd r) <> Some VNone).
Proof.
  cbv zeta. split; (split; [|split]).
  - vm_compute. reflexivity.
  - vm_compute. reflexivity.
  - vm_compute. discriminate.
  - vm_compute. reflexivity.
  - vm_compute. reflexivity.
  - vm_compute. discriminate.
Qed.

(** C3 as stated fails: in a row whose ["saved_to"] record is [None] (what
    a failed checkpoint leaves), [Checkpoint.do] raises a [TypeError]
    before any call to the pickler, on a disk on which no write fails, and
    the log holds [None], not the path; and after a successful run on an
    empty row the record is a one-element tuple, not the path itself. *)
Lemma checkpoint_after_failure_records_no_path :
  (let s := Sim.start {[SAVED_TO := VNone]} Sim.empty_world in
   let r := Checkpoint.do (P := Sim.platform) Sim.checkpoint "after_epoch" [] s in
   Sim.healthy (world s)
   /\ trace (snd r) = []
   /\ fst r = Raised (mkExc TypeError "can only concatenate tuple to tuple")
   /\ saved_to (snd r) = Some VNone
   /\ ~ records_path VNone (VStr "run/model.pkl"))
  /\ (let s := Sim.start ∅ Sim.empty_world in
      let r := Checkpoint.do (P := Sim.platform) Sim.checkpoint "after_epoch" [] s in
      fst r = Returned tt
      /\ saved_to (snd r) = Some (VTuple [VStr "run/model.pkl"])
      /\ saved_to (snd r) <> Some (VStr "run/model.pkl")).
Proof.
  cbv zeta. split.
  - split; [reflexivity|]. split; [vm_compute; reflexivity|].
    split; [vm_compute; reflexivity|]. split; [vm_compute; reflexivity|].
    intros [H|[xs H]]; discriminate.
  - split; [vm_compute; reflexivity|]. split; [vm_compute; reflexivity|].
    vm_compute. discriminate.
Qed.

(** C4 as stated fails: after two successful runs of [Checkpoint.do] in
    one row the ["saved_to"] record is a tuple of two paths, which is
    neither a single path nor [None]. *)
Lemma saved_to_holds_a_tuple :
  let s := Sim.start ∅ Sim.empty_world in
  let r := run_all (P := Sim.platform) Sim.checkpoint Sim.two_calls s in
  fst r = Returned tt
  /\ saved_to (snd r) =
     Some (VTuple [VStr "run/model.pkl"; VStr "run/best.pkl"])
  /\ path_or_None (VTuple [VStr "run/model.pkl"; VStr "run/best.pkl"]) = false.
Proof.
  cbv zeta. split; [vm_compute; reflexivity|].
  split; [vm_compute; reflexivity | reflexivity].
Qed.

(** * Further properties of the extensions *)

(** ** Strings *)

Lemma length_append (a b : string) :
  String.length (a +:+ b) = String.length a + String.length b.
Proof.
  induction a as [|c a IH]; [reflexivity|].
  change (S (String.length (a +:+ b)) = S (String.length a + String.length b)).
  now rewrite IH.
Qed.

Lemma append_inv_tail (a b e : string) : a +:+ e = b +:+ e -> a = b.
Proof.
  revert b; induction a as [|c a IH]; intros [|c' b] H.
  - reflexivity.
  - exfalso. apply (f_equal String.length) in H.
    rewrite !length_append in H. cbn [String.length] in H. lia.
  - exfalso. apply (f_equal String.length) in H.
    rewrite !length_append in H. cbn [String.length] in H. lia.
  - change (String c (a +:+ e) = String c' (b +:+ e)) in H.
    injection H as -> H. f_equal. now apply IH.
Qed.

Lemma derived_path_inj (p a b : string) :
  derived_path p a = derived_path p b -> a = b.
Proof.
  unfold derived_path. intros H.
  apply String.app_inj in H.
  change (String "_" (a +:+ snd (PosixPath.splitext p)) =
          String "_" (b +:+ snd (PosixPath.splitext p))) in H.
  injection H as H. now apply append_inv_tail in H.
Qed.

Lemma derived_path_fresh (p a : string) : derived_path p a <> p.
Proof.
  unfold derived_path. intros H.
  rewrite <- (splitext_concat p) in H at 3.
  apply String.app_inj in H. apply (f_equal String.length) in H.
  change ("_" +:+ a +:+ snd (PosixPath.splitext p))
    with (String "_" (a +:+ snd (PosixPath.splitext p))) in H.
  cbn [String.length] in H. rewrite length_append in H. lia.
Qed.

(** ** The extension that [splitext] splits off *)

Lemma rfind_from_get (c : ascii) (p : string) (i acc : Z) :
  (0 <= i)%Z ->
  let r := PosixPath.rfind_from c p i acc in
  r = acc \/ ((i <= r)%Z /\ String.get (Z.to_nat (r - i)) p = Some c).
Proof.
  revert i acc; induction p as [|a p IH]; intros i acc Hi; cbn zeta.
  - now left.
  - cbn [PosixPath.rfind_from].
    destruct (IH (i + 1)%Z (if Ascii.eqb a c then i else acc)) as [H|[Hle Hget]];
      [lia | |].
    + rewrite H. destruct (Ascii.eqb a c) eqn:Hac; [|now left].
      right. split; [lia|]. apply Ascii.eqb_eq in Hac as ->.
      replace (Z.to_nat (i - i)) with 0 by lia. reflexivity.
    + right. split; [lia|].
      replace (Z.to_nat (PosixPath.rfind_from c p (i + 1)
                           (if Ascii.eqb a c then i else acc) - i))
        with (S (Z.to_nat (PosixPath.rfind_from c p (i + 1)
                             (if Ascii.eqb a c then i else acc) - (i + 1))))
        by lia.
      exact Hget.
Qed.

Lemma drop_zero (p : string) : PosixPath.drop 0 p = p.
Proof. destruct p; reflexivity. Qed.

Lemma occurs_drop (c : ascii) (n : nat) (p : string) :
  occurs c p = false -> occurs c (PosixPath.drop n p) = false.
Proof.
  revert p; induction n as [|n IH]; intros p H; [now rewrite drop_zero|].
  destruct p as [|a p]; [exact H|]. cbn [PosixPath.drop].
  cbn [occurs] in H. apply orb_false_iff in H as [_ H]. now apply IH.
Qed.

Lemma drop_get (c : ascii) (n : nat) (p : string) :
  String.get n p = Some c -> exists rest, PosixPath.drop n p = String c rest.
Proof.
  revert p; induction n as [|n IH]; intros [|a p] H; try discriminate.
  - injection H as ->. now exists p.
  - cbn [PosixPath.drop]. now apply IH.
Qed.

Lemma rfind_from_last (c : ascii) (p : string) (i acc : Z) :
  (0 <= i)%Z -> (acc < i)%Z ->
  let r := PosixPath.rfind_from c p i acc in
  (r = acc /\ occurs c p = false)
  \/ ((i <= r)%Z /\ occurs c (PosixPath.drop (S (Z.to_nat (r - i))) p) = false).
Proof.
  revert i acc; induction p as [|a p IH]; intros i acc Hi Hacc; cbn zeta.
  - now left.
  - cbn [PosixPath.rfind_from occurs].
    destruct (IH (i + 1)%Z (if Ascii.eqb a c then i else acc))
      as [[H Hocc]|[Hle Hocc]]; [lia | destruct (Ascii.eqb a c); lia | |].
    + rewrite H. destruct (Ascii.eqb a c) eqn:Hac.
      * right. split; [lia|].
        replace (Z.to_nat (i - i)) with 0 by lia.
        cbn [PosixPath.drop]. now rewrite ?drop_zero.
      * left. split; [reflexivity | exact Hocc].
    + right. split; [lia|]. cbn [PosixPath.drop].
      replace (Z.to_nat (PosixPath.rfind_from c p (i + 1)
                           (if Ascii.eqb a c then i else acc) - i))
        with (S (Z.to_nat (PosixPath.rfind_from c p (i + 1)
                             (if Ascii.eqb a c then i else acc) - (i + 1))))
        by lia.
      exact Hocc.
Qed.

Lemma occurs_drop_le (c : ascii) (n k : nat) (p : string) :
  n <= k -> occurs c (PosixPath.drop n p) = false ->
  occurs c (PosixPath.drop k p) = false.
Proof.
  revert k p; induction n as [|n IH]; intros k p Hle H.
  - rewrite drop_zero in H. now apply occurs_drop.
  - destruct k as [|k]; [lia|]. destruct p as [|a p]; [exact H|].
    cbn [PosixPath.drop] in *. apply IH; [lia | exact H].
Qed.

(** X10: the extension that [splitext] splits off is empty or starts with
    a dot, and it contains no path separator; so the name of an attribute
    is inserted into the file name of the checkpoint, never into the name
    of one of its directories. *)
Theorem splitext_extension_shape (p : string) :
  let ext := snd (PosixPath.splitext p) in
  (ext = "" \/ exists rest, ext = String PosixPath.extsep rest)
  /\ occurs PosixPath.sep ext = false.
Proof.
  cbn zeta. unfold PosixPath.splitext, PosixPath.rfind.
  destruct (_ <? _)%Z eqn:Hlt; [|split; [now left | reflexivity]].
  destruct (PosixPath.skip_leading_dots _ _ _);
    [|split; [now left | reflexivity]].
  apply Z.ltb_lt in Hlt. cbn [snd]. split.
  - right.
    destruct (rfind_from_get PosixPath.extsep p 0 (-1)) as [H|[Hle Hget]];
      [lia | |].
    + exfalso.
      destruct (rfind_from_get PosixPath.sep p 0 (-1) ltac:(lia))
        as [H'|[Hle' _]]; lia.
    + rewrite Z.sub_0_r in Hget. now apply drop_get in Hget.
  - destruct (rfind_from_last PosixPath.sep p 0 (-1)) as [[_ Hocc]|[Hle Hocc]];
      [lia | lia | |].
    + now apply occurs_drop.
    + rewrite Z.sub_0_r in Hocc.
      eapply occurs_drop_le; [|exact Hocc]. lia.
Qed.

Section MoreProperties.

Context {P : Platform}.

Implicit Types (s : State) (m : MainLoop) (e : PyException).

(** ** File names that do not collide *)

Lemma filenames_lookup_derived (self : Checkpoint.t) (p : string) s s'
    (d : gmap string string) (a f : string) :
  Checkpoint.save_separately_filenames self (VStr p) s = (Returned d, s') ->
  d !! a = Some f -> f = derived_path p a.
Proof.
  unfold Checkpoint.save_separately_filenames, derived_path.
  destruct (PosixPath.splitext p) as [root ext]. intros [= <- <-] Hf.
  assert (Ha : a ∈ Checkpoint.save_separately self).
  { destruct (filenames_fold_dom root ext (Checkpoint.save_separately self) ∅ a)
      as [Ha|[x Hx]]; [eauto | exact Ha |].
    rewrite lookup_empty in Hx. discriminate. }
  rewrite (filenames_dict_lookup root ext _ a Ha) in Hf.
  now injection Hf as <-.
Qed.

(** X1: in the dictionary that [save_separately_filenames(p)] returns,
    two different attribute names never share a file name, and no file
    name is [p] itself: saving the attributes separately overwrites neither
    the main pickle nor one another. *)
Theorem save_separately_filenames_no_collision (self : Checkpoint.t)
    (p : string) s s' (d : gmap string string) :
  Checkpoint.save_separately_filenames self (VStr p) s = (Returned d, s') ->
  (forall a b f, d !! a = Some f -> d !! b = Some f -> a = b)
  /\ (forall a, d !! a <> Some p).
Proof.
  intros Hd. split.
  - intros a b f Ha Hb.
    apply (filenames_lookup_derived _ _ _ _ _ _ _ Hd) in Ha, Hb.
    rewrite Ha in Hb. now apply derived_path_inj in Hb.
  - intros a Ha. apply (filenames_lookup_derived _ _ _ _ _ _ _ Hd) in Ha.
    symmetry in Ha. now apply derived_path_fresh in Ha.
Qed.

(** ** A record that is not a tuple *)

Lemma do_try_non_tuple (self : Checkpoint.t) (from_user : list value)
    (v : value) s :
  saved_to s = Some v ->
  (forall xs, v <> VTuple xs) ->
  length from_user <= 1 ->
  Checkpoint.do_try self from_user s =
  (Raised (mkExc TypeError "can only concatenate tuple to tuple"), s).
Proof.
  intros Hv Hnt Hlen. unfold Checkpoint.do_try. rewrite bind_run.
  unfold saved_to in Hv.
  destruct from_user as [|p [|q from_user]]; [| |cbn in Hlen; lia];
    cbn [unpack_single mret M_ret]; rewrite bind_run; cbn [get_main_loop];
    cbn zeta; rewrite Hv;
    (destruct v; try reflexivity; exfalso; eapply Hnt; reflexivity).
Qed.

Lemma do_on_non_tuple (self : Checkpoint.t) (callback_name : string)
    (args : list value) (v : value) s :
  saved_to s = Some v ->
  (forall xs, v <> VTuple xs) ->
  length (snd (parse_args callback_name args)) <= 1 ->
  Checkpoint.do self callback_name args s =
  (Raised (mkExc TypeError "can only concatenate tuple to tuple"),
   record_saved_to VNone s).
Proof.
  intros Hv Hnt Hlen.
  rewrite do_run, (do_try_non_tuple self _ v s Hv Hnt Hlen). reflexivity.
Qed.

(** X2: when the current row already holds under ["saved_to"] something
    that is not a tuple ([None] after a failure, or the folder written by
    [Dump.do]), [Checkpoint.do] with at most one argument from the user
    raises a [TypeError] without calling the pickler: only the record
    changes, to [None]. *)
Theorem checkpoint_do_on_non_tuple (self : Checkpoint.t) (callback_name : string)
    (args : list value) (v : value) s :
  saved_to s = Some v ->
  (forall xs, v <> VTuple xs) ->
  length (snd (parse_args callback_name args)) <= 1 ->
  let r := Checkpoint.do self callback_name args s in
  fst r = Raised (mkExc TypeError "can only concatenate tuple to tuple")
  /\ saved_to (snd r) = Some VNone
  /\ trace (snd r) = trace s
  /\ world (snd r) = world s
  /\ same_except_saved_to (main_loop s) (main_loop (snd r)).
Proof.
  intros Hv Hnt Hlen. cbn zeta.
  rewrite (do_on_non_tuple self _ _ v s Hv Hnt Hlen). cbn [fst snd].
  split; [reflexivity|]. split; [apply saved_to_record_saved_to|].
  split; [reflexivity|]. split; [reflexivity|].
  apply same_except_set_record, same_except_refl.
Qed.

Lemma do_raised_record (self : Checkpoint.t) (callback_name : string)
    (args : list value) s e :
  fst (Checkpoint.do self callback_name args s) = Raised e ->
  is_Exception e = true ->
  saved_to (snd (Checkpoint.do self callback_name args s)) = Some VNone.
Proof.
  rewrite do_run.
  destruct (Checkpoint.do_try _ _ s) as [[[]|e'] s1]; cbn [fst snd];
    [discriminate|].
  destruct (is_Exception e') eqn:Hexc'; cbn [fst snd].
  - intros _ _. apply saved_to_record_saved_to.
  - intros [= ->] Hexc. congruence.
Qed.

(** X3: a failure is sticky within a row: after a run of [Checkpoint.do]
    that raised an exception of class [Exception], every further run of a
    checkpoint in the same row (with at most one argument from the user)
    raises a [TypeError] and saves nothing. *)
Theorem checkpoint_failure_is_sticky (self1 self2 : Checkpoint.t)
    (callback_name1 callback_name2 : string) (args1 args2 : list value) s e :
  fst (Checkpoint.do self1 callback_name1 args1 s) = Raised e ->
  is_Exception e = true ->
  length (snd (parse_args callback_name2 args2)) <= 1 ->
  let s1 := snd (Checkpoint.do self1 callback_name1 args1 s) in
  Checkpoint.do self2 callback_name2 args2 s1 =
  (Raised (mkExc TypeError "can only concatenate tuple to tuple"),
   record_saved_to VNone s1).
Proof.
  intros Hraised Hexc Hlen s1.
  apply (do_on_non_tuple self2 _ _ VNone).
  - exact (do_raised_record self1 _ _ s e Hraised Hexc).
  - discriminate.
  - exact Hlen.
Qed.

(** X4: [Dump.do] and [Checkpoint.do] do not compose within a row: after
    a successful [Dump.do], whose record is the folder string, a
    [Checkpoint.do] in the same row raises a [TypeError], calls the pickler
    not at all and replaces the record of the dump by [None]. *)
Theorem checkpoint_after_dump_fails (dump : Dump.t) (self : Checkpoint.t)
    (callback_name1 callback_name2 : string) (args1 args2 : list value) s :
  fst (Dump.do dump callback_name1 args1 s) = Returned tt ->
  length (snd (parse_args callback_name2 args2)) <= 1 ->
  let s1 := snd (Dump.do dump callback_name1 args1 s) in
  saved_to s1 = Some (VStr (folder (Dump.manager dump)))
  /\ Checkpoint.do self callback_name2 args2 s1 =
     (Raised (mkExc TypeError "can only concatenate tuple to tuple"),
      record_saved_to VNone s1).
Proof.
  intros Hret Hlen s1.
  assert (Hrec : saved_to s1 = Some (VStr (folder (Dump.manager dump)))).
  { subst s1. revert Hret. rewrite dump_do_run. cbn zeta.
    destruct (fst (manager_dump _ _ _)); [discriminate|]. intros _.
    unfold saved_to. cbn. apply lookup_insert_eq. }
  split; [exact Hrec|].
  apply (do_on_non_tuple self _ _ _ s1 Hrec); [discriminate | exact Hlen].
Qed.

(** X11: with two or more arguments from the user, [Checkpoint.do] raises
    a [ValueError] from [path, = from_user]; the pickler is not called, the
    construction-time path is not used either, and [None] is recorded. *)
Theorem checkpoint_do_too_many_arguments (self : Checkpoint.t)
    (callback_name : string) (args : list value) s :
  1 < length (snd (parse_args callback_name args)) ->
  let r := Checkpoint.do self callback_name args s in
  fst r = Raised (mkExc ValueError "too many values to unpack")
  /\ saved_to (snd r) = Some VNone
  /\ trace (snd r) = trace s
  /\ world (snd r) = world s.
Proof.
  intros Hlen. cbn zeta.
  destruct (snd (parse_args callback_name args)) as [|p [|q rest]] eqn:Hfu;
    [cbn in Hlen; lia | cbn in Hlen; lia |].
  rewrite (do_too_many_arguments self _ _ p q rest s Hfu). cbn [fst snd].
  split; [reflexivity|]. split; [apply saved_to_record_saved_to|].
  split; reflexivity.
Qed.

(** ** What a run calls *)

Lemma separate_calls_pickle m (p : string) (attrs : list string) :
  length (separate_calls m p attrs) <= length attrs
  /\ Forall (fun ev => is_pickle_call ev = true) (separate_calls m p attrs).
Proof.
  induction attrs as [|a attrs [IHl IHf]]; cbn; [split; [lia | constructor]|].
  destruct (lookup_attribute m a); cbn; [|split; [lia | constructor]].
  split; [lia | constructor; [reflexivity | exact IHf]].
Qed.

Lemma separate_calls_to_pickle m (path : value) (attrs : list string) :
  length (separate_calls_to m path attrs) <= length attrs
  /\ Forall (fun ev => is_pickle_call ev = true) (separate_calls_to m path attrs).
Proof.
  destruct path; cbn; try (split; [lia | constructor]).
  apply separate_calls_pickle.
Qed.

(** X5: no retry and nothing but pickling: a run of [Checkpoint.do],
    whatever its outcome, calls [secure_pickle_dump] at most once for the
    main loop and once for each entry of [save_separately], and makes no
    other call that leaves the process. *)
Theorem checkpoint_do_calls_bounded (self : Checkpoint.t) (callback_name : string)
    (args : list value) s :
  exists evs : list event,
    trace (snd (Checkpoint.do self callback_name args s)) = trace s ++ evs
    /\ length evs <= 1 + length (Checkpoint.save_separately self)
    /\ Forall (fun ev => is_pickle_call ev = true) evs.
Proof.
  rewrite do_run.
  destruct (do_try_run self (snd (parse_args callback_name args)) s)
    as [(e & He & Hexc & _) | (xs & calls & _ & _ & H)].
  - rewrite He, Hexc. exists []. cbn. rewrite app_nil_r.
    split; [reflexivity|]. split; [lia | constructor].
  - cbn zeta in H. destruct H as (_ & Ht & Hp & _).
    eexists. split.
    + destruct (Checkpoint.do_try _ _ s) as [[[]|e] s1]; cbn [snd] in *;
        [exact Ht|]. destruct (is_Exception e); exact Ht.
    + destruct (separate_calls_to_pickle
                  (set_record SAVED_TO
                     (VTuple (xs ++ [used_path self
                                       (snd (parse_args callback_name args))]))
                     (main_loop s))
                  (used_path self (snd (parse_args callback_name args)))
                  (Checkpoint.save_separately self)) as [Hl Hf].
      split.
      * cbn. apply prefix_length in Hp. lia.
      * constructor; [reflexivity|].
        destruct Hp as [k Hk]. rewrite Hk in Hf.
        now apply Forall_app in Hf as [Hf _].
Qed.

(** ** Dumping and loading *)

(** X6: every run of [Dump.do] makes exactly one call, [manager.dump], on
    a main loop whose current row already names the dump folder under
    ["saved_to"], and whatever the outcome it changes nothing of the main
    loop but that record. *)
Theorem dump_do_effect (self : Dump.t) (callback_name : string)
    (args : list value) s :
  let dump_folder := folder (Dump.manager self) in
  let m1 := set_record SAVED_TO (VStr dump_folder) (main_loop s) in
  let s' := snd (Dump.do self callback_name args s) in
  trace s' = trace s ++ [DumpCall dump_folder m1]
  /\ current_row (log m1) !! SAVED_TO = Some (VStr dump_folder)
  /\ world s' = snd (manager_dump dump_folder m1 (world s))
  /\ same_except_saved_to (main_loop s) (main_loop s').
Proof.
  cbn zeta. rewrite dump_do_run. cbn zeta.
  split; [destruct (fst (manager_dump _ _ _)); reflexivity|].
  split; [cbn; apply lookup_insert_eq|].
  split; [destruct (fst (manager_dump _ _ _)); reflexivity|].
  destruct (fst (manager_dump _ _ _)) as [e|]; cbn [snd main_loop].
  - destruct (is_Exception e);
      repeat apply same_except_set_record; apply same_except_refl.
  - apply same_except_set_record, same_except_refl.
Qed.

(** X7: [LoadFromDump.before_training] does not roll back: when the dump
    folder exists, the run returns normally exactly when [load_to] does;
    otherwise the main loop and the world stay as [load_to] left them, with
    no record written by the extension, and an exception that is not of
    class [Exception] reaches the caller as it is, without [reraise_as]. *)
Theorem load_from_dump_no_rollback (self : LoadFromDump.t) s :
  let dump_folder := folder (LoadFromDump.manager self) in
  let loaded := manager_load_to dump_folder (main_loop s) (world s) in
  let r := LoadFromDump.before_training self s in
  path_exists dump_folder (world s) = true ->
  world (snd r) = snd loaded
  /\ (fst r = Returned tt <-> fst (fst loaded) = None)
  /\ (fst r = Returned tt ->
      main_loop (snd r) =
      set_record LOADED_FROM (VStr dump_folder) (snd (fst loaded)))
  /\ (fst r <> Returned tt -> main_loop (snd r) = snd (fst loaded))
  /\ (forall e, fst (fst loaded) = Some e -> is_Exception e = false ->
      fst r = Raised e).
Proof.
  cbn zeta. intros Hexists. rewrite before_training_run. cbn zeta.
  rewrite Hexists.
  destruct (fst (fst (manager_load_to _ _ _))) as [e|]; cbn [fst snd world main_loop].
  - split; [reflexivity|]. split; [split; discriminate|].
    split; [discriminate|].
    split; [reflexivity|]. intros e' [= <-] ->. reflexivity.
  - split; [reflexivity|]. split; [split; reflexivity|].
    split; [reflexivity|].
    split; [intros H; now contradiction H | discriminate].
Qed.

(** ** A missing attribute *)

Lemma lookup_attribute_set_record_None (key : string) (v : value) m (a : string) :
  lookup_attribute m a = None -> lookup_attribute (set_record key v m) a = None.
Proof.
  unfold lookup_attribute. destruct (decide (a = "log")); [discriminate|].
  cbn. trivial.
Qed.

(** X8: when the main loop lacks an attribute listed in [save_separately]
    and serialization itself does not fail (neither the pickling of the
    main loop nor that of the attributes listed before the missing one
    raises), [Checkpoint.do] raises an [AttributeError] for the first
    missing attribute and records [None], although the main pickle and the
    attributes listed before the missing one have been saved: [None] in the
    log does not mean that nothing was written. *)
Theorem checkpoint_missing_attribute
    (self : Checkpoint.t) (callback_name : string) (args : list value)
    (p : string) (xs : list value) (before : list string) (a : string)
    (after : list string) s :
  let from_user := snd (parse_args callback_name args) in
  let m1 := set_record SAVED_TO (VTuple (xs ++ [VStr p])) (main_loop s) in
  let r := Checkpoint.do self callback_name args s in
  from_user = [VStr p] \/ from_user = [] /\ VStr p = Checkpoint.path self ->
  already_saved_to s = VTuple xs ->
  Checkpoint.save_separately self = before ++ a :: after ->
  Forall (fun b => is_Some (lookup_attribute (main_loop s) b)) before ->
  lookup_attribute (main_loop s) a = None ->
  pickles_succeed (world s)
    (PickleCall (ObjMainLoop m1) (VStr p) :: separate_calls m1 p before) ->
  fst r = Raised (mkExc AttributeError a)
  /\ saved_to (snd r) = Some VNone
  /\ trace (snd r) =
     trace s ++ PickleCall (ObjMainLoop m1) (VStr p) :: separate_calls m1 p before.
Proof.
  intros from_user m1 r Hsel Hprev Hattrs Hall Hmiss Hok. subst r.
  rewrite do_run. fold from_user.
  assert (Hall1 : Forall (fun b => is_Some (lookup_attribute m1 b)) before).
  { eapply Forall_impl; [exact Hall|].
    intros b Hb. now apply lookup_attribute_set_record. }
  destruct (do_try_up_to self from_user p xs before a after s
              Hsel Hprev Hattrs Hall1 Hok) as (d & _ & ->).
  assert (Hmiss1 : lookup_attribute m1 a = None)
    by (now apply lookup_attribute_set_record_None).
  fold m1. rewrite Hmiss1.
  cbn [is_Exception exc_type fst snd].
  split; [reflexivity|]. split; [apply saved_to_record_saved_to | reflexivity].
Qed.

(** X9: a checkpoint constructed without [save_separately] ([None] or an
    empty list) makes, in a run that returns normally, exactly one call:
    the pickling of the main loop, already carrying the new record, to the
    path used. *)
Theorem checkpoint_without_save_separately (path : value)
    (save_separately : option (list string)) (callback_name : string)
    (args : list value) s :
  let self := Checkpoint.init path save_separately in
  let r := Checkpoint.do self callback_name args s in
  let used := used_path self (snd (parse_args callback_name args)) in
  save_separately = None \/ save_separately = Some [] ->
  fst r = Returned tt ->
  exists xs : list value,
    already_saved_to s = VTuple xs
    /\ trace (snd r) =
       trace s ++ [PickleCall
                     (ObjMainLoop (set_record SAVED_TO (VTuple (xs ++ [used]))
                                     (main_loop s))) used].
Proof.
  intros self r used Hsep Hret. subst r.
  assert (Hnil : Checkpoint.save_separately self = []).
  { subst self. destruct Hsep as [->| ->]; reflexivity. }
  destruct (Checkpoint.do self callback_name args s) as [o s'] eqn:Hdo.
  cbn [fst snd] in *. subst o. apply do_returned in Hdo.
  destruct (do_try_run self (snd (parse_args callback_name args)) s)
    as [(e & He & _) | (xs & calls & _ & Hprev & H)].
  - rewrite He in Hdo. discriminate.
  - cbn zeta in H. rewrite Hdo in H. cbn [fst snd] in H.
    destruct H as (_ & Ht & _ & Hr). destruct (Hr eq_refl) as (Hc & _ & _).
    exists xs. split; [exact Hprev|]. rewrite Ht, Hc, Hnil.
    fold used. destruct used; reflexivity.
Qed.

(** ** A path without extension *)

Lemma rfind_from_absent (c : ascii) (p : string) (i acc : Z) :
  occurs c p = false -> PosixPath.rfind_from c p i acc = acc.
Proof.
  revert i acc; induction p as [|a p IH]; intros i acc H; [reflexivity|].
  cbn [occurs] in H. apply orb_false_iff in H as [Hac H].
  cbn [PosixPath.rfind_from]. rewrite Hac. now apply IH.
Qed.

Lemma splitext_without_dot (p : string) :
  occurs PosixPath.extsep p = false -> PosixPath.splitext p = (p, "").
Proof.
  intros H. unfold PosixPath.splitext, PosixPath.rfind.
  rewrite (rfind_from_absent PosixPath.extsep p 0 (-1) H).
  destruct (rfind_from_get PosixPath.sep p 0 (-1) ltac:(lia)) as [Hs|[Hs _]].
  - rewrite Hs. reflexivity.
  - destruct (_ <? _)%Z eqn:Hlt; [|reflexivity].
    apply Z.ltb_lt in Hlt. exfalso. lia.
Qed.

(** X12: for a path without a dot, [save_separately_filenames] appends
    ["_"] and the attribute name to the whole path. *)
Theorem save_separately_filenames_without_extension (self : Checkpoint.t)
    (p a : string) s :
  occurs PosixPath.extsep p = false ->
  a ∈ Checkpoint.save_separately self ->
  exists d : gmap string string,
    Checkpoint.save_separately_filenames self (VStr p) s = (Returned d, s)
    /\ d !! a = Some (p +:+ "_" +:+ a).
Proof.
  intros Hdot Ha. unfold Checkpoint.save_separately_filenames.
  rewrite (splitext_without_dot p Hdot).
  eexists. split; [reflexivity|].
  rewrite (filenames_dict_lookup p "" _ a Ha). now rewrite append_empty_r.
Qed.

End MoreProperties.

(** ** Instances of the further properties *)

Lemma save_separately_filenames_no_collision_witness :
  let d := Checkpoint.filenames_dict "run/model" ".pkl" ["log"; "model"] in
  (forall a b f, d !! a = Some f -> d !! b = Some f -> a = b)
  /\ (forall a, d !! a <> Some "run/model.pkl").
Proof.
  cbv zeta.
  apply (save_separately_filenames_no_collision (P := Sim.platform)
           Sim.checkpoint "run/model.pkl"
           (Sim.start ∅ Sim.empty_world) (Sim.start ∅ Sim.empty_world)).
  reflexivity.
Defined.

Lemma checkpoint_do_on_non_tuple_witness :
  let s := Sim.start {[SAVED_TO := VNone]} Sim.empty_world in
  let r := Checkpoint.do (P := Sim.platform) Sim.checkpoint "after_epoch" [] s in
  fst r = Raised (mkExc TypeError "can only concatenate tuple to tuple")
  /\ saved_to (snd r) = Some VNone
  /\ trace (snd r) = trace s
  /\ world (snd r) = world s
  /\ same_except_saved_to (main_loop s) (main_loop (snd r)).
Proof.
  cbv zeta.
  apply (checkpoint_do_on_non_tuple (P := Sim.platform) Sim.checkpoint
           "after_epoch" [] VNone).
  - vm_compute. reflexivity.
  - discriminate.
  - vm_compute. lia.
Defined.

Lemma checkpoint_failure_is_sticky_witness :
  let s := Sim.start ∅ (Sim.faulty_world "run/model.pkl" Sim.disk_full) in
  let s1 := snd (Checkpoint.do (P := Sim.platform) Sim.checkpoint
                   "after_epoch" [] s) in
  Checkpoint.do (P := Sim.platform) Sim.checkpoint "after_epoch"
    [VStr "run/best.pkl"] s1 =
  (Raised (mkExc TypeError "can only concatenate tuple to tuple"),
   record_saved_to VNone s1).
Proof.
  cbv zeta.
  apply (checkpoint_failure_is_sticky (P := Sim.platform)
           Sim.checkpoint Sim.checkpoint "after_epoch" "after_epoch"
           [] [VStr "run/best.pkl"]
           (Sim.start ∅ (Sim.faulty_world "run/model.pkl" Sim.disk_full))
           Sim.disk_full).
  - vm_compute. reflexivity.
  - reflexivity.
  - vm_compute. lia.
Defined.

Lemma checkpoint_after_dump_fails_witness :
  let s := Sim.start ∅ Sim.empty_world in
  let dump := Dump.init (P := Sim.platform) "run/dump" in
  let s1 := snd (Dump.do (P := Sim.platform) dump "after_epoch" [] s) in
  saved_to s1 = Some (VStr "run/dump")
  /\ Checkpoint.do (P := Sim.platform) Sim.checkpoint "after_epoch" [] s1 =
     (Raised (mkExc TypeError "can only concatenate tuple to tuple"),
      record_saved_to VNone s1).
Proof.
  cbv zeta.
  apply (checkpoint_after_dump_fails (P := Sim.platform)
           (Dump.init (P := Sim.platform) "run/dump") Sim.checkpoint
           "after_epoch" "after_epoch" [] []
           (Sim.start ∅ Sim.empty_world)).
  - vm_compute. reflexivity.
  - vm_compute. lia.
Defined.

Lemma load_from_dump_no_rollback_witness :
  let s := Sim.start ∅ (Sim.faulty_world "run/dump" Sim.read_error) in
  let r := LoadFromDump.before_training (P := Sim.platform)
             (LoadFromDump.init (P := Sim.platform) "run/dump") s in
  main_loop (snd r) = main_loop s.
Proof.
  cbv zeta.
  apply (proj1 (proj2 (proj2 (proj2
           (load_from_dump_no_rollback (P := Sim.platform)
              (LoadFromDump.init (P := Sim.platform) "run/dump")
              (Sim.start ∅ (Sim.faulty_world "run/dump" Sim.read_error))
              ltac:(vm_compute; reflexivity)))))).
  vm_compute. discriminate.
Defined.

Lemma checkpoint_missing_attribute_witness :
  let self := Checkpoint.init (VStr "run/model.pkl")
                (Some ["log"; "optimizer"; "model"]) in
  let s := Sim.start ∅ Sim.empty_world in
  let m1 := set_record SAVED_TO (VTuple [VStr "run/model.pkl"]) (main_loop s) in
  let r := Checkpoint.do (P := Sim.platform) self "after_epoch" [] s in
  fst r = Raised (mkExc AttributeError "optimizer")
  /\ saved_to (snd r) = Some VNone
  /\ trace (snd r) =
     [PickleCall (ObjMainLoop m1) (VStr "run/model.pkl");
      PickleCall (ObjLog (log m1)) (VStr "run/model_log.pkl")].
Proof.
  cbv zeta.
  apply (checkpoint_missing_attribute (P := Sim.platform)
           (Checkpoint.init (VStr "run/model.pkl")
              (Some ["log"; "optimizer"; "model"]))
           "after_epoch" [] "run/model.pkl" [] ["log"] "optimizer" ["model"]
           (Sim.start ∅ Sim.empty_world)).
  - right. split; reflexivity.
  - reflexivity.
  - reflexivity.
  - repeat constructor; vm_compute; eauto.
  - vm_compute. reflexivity.
  - vm_compute. repeat split; reflexivity.
Defined.

Lemma checkpoint_without_save_separately_witness :
  let s := Sim.start ∅ Sim.empty_world in
  let r := Checkpoint.do (P := Sim.platform)
             (Checkpoint.init (VStr "run/model.pkl") None) "after_epoch" [] s in
  exists xs : list value,
    already_saved_to s = VTuple xs
    /\ trace (snd r) =
       trace s ++ [PickleCall
                     (ObjMainLoop (set_record SAVED_TO
                                     (VTuple (xs ++ [VStr "run/model.pkl"]))
                                     (main_loop s)))
                     (VStr "run/model.pkl")].
Proof.
  cbv zeta.
  apply (checkpoint_without_save_separately (P := Sim.platform)
           (VStr "run/model.pkl") None "after_epoch" []
           (Sim.start ∅ Sim.empty_world)).
  - left. reflexivity.
  - vm_compute. reflexivity.
Defined.

Lemma checkpoint_do_too_many_arguments_witness :
  let s := Sim.start ∅ Sim.empty_world in
  let r := Checkpoint.do (P := Sim.platform) Sim.checkpoint "after_epoch"
             [VStr "run/a.pkl"; VStr "run/b.pkl"] s in
  fst r = Raised (mkExc ValueError "too many values to unpack")
  /\ saved_to (snd r) = Some VNone
  /\ trace (snd r) = trace s
  /\ world (snd r) = world s.
Proof.
  cbv zeta.
  apply (checkpoint_do_too_many_arguments (P := Sim.platform) Sim.checkpoint
           "after_epoch" [VStr "run/a.pkl"; VStr "run/b.pkl"]).
  vm_compute. lia.
Defined.

Lemma save_separately_filenames_without_extension_witness :
  let s := Sim.start ∅ Sim.empty_world in
  exists d : gmap string string,
    Checkpoint.save_separately_filenames (P := Sim.platform) Sim.checkpoint
      (VStr "run/model") s = (Returned d, s)
    /\ d !! "log" = Some "run/model_log".
Proof.
  cbv zeta.
  apply (save_separately_filenames_without_extension (P := Sim.platform)
           Sim.checkpoint "run/model" "log" (Sim.start ∅ Sim.empty_world)).
  - reflexivity.
  - left.
Defined.
